(** * The Confluence connector of onyx, embedded and verified

    Source: [backend/onyx/connectors/confluence/connector.py].

    The connector builds CQL query strings from its configuration, pages
    through the results of a Confluence client and yields batches of
    documents (full fetch) or of slim permission records (slim fetch).

    Python values that come back from the Confluence REST API are JSON
    values; exceptions are an explicit error type; a generator is the
    list of events it produces together with the way it ends. *)

From Stdlib Require Import ZArith List String Ascii Bool Lia.
From Stdlib Require Import DecimalString.
Import ListNotations.

Set Warnings "-register-all".
Local Open Scope Z_scope.
Local Open Scope list_scope.

Infix "+++" := String.append (right associativity, at level 60).

(* ================================================================= *)
(** ** Python values, truthiness and exceptions *)

(** What [dict[str, Any]] holds once the REST response is decoded. A
    dictionary is an association list; [dict_get] takes the first binding
    of a key. *)
Inductive json : Type :=
| JNone
| JBool (b : bool)
| JInt (n : Z)
| JStr (s : string)
| JList (l : list json)
| JDict (d : list (string * json)).

(** [bool(v)]: what [if v:], [not v] and [v or w] test. *)
Definition truthy (v : json) : bool :=
  match v with
  | JNone => false
  | JBool b => b
  | JInt n => negb (n =? 0)
  | JStr s => negb (String.eqb s EmptyString)
  | JList l => match l with [] => false | _ => true end
  | JDict d => match d with [] => false | _ => true end
  end.

(** [v or w] *)
Definition py_or (v w : json) : json := if truthy v then v else w.

(** A [requests.Response]; only the status code matters here. *)
Record Response : Type := { status_code : Z }.

(** [Response.__bool__] returns [self.ok], and [ok] is false exactly when
    [raise_for_status] would raise, that is for 400 <= status < 600. *)
Definition Response_bool (r : Response) : bool :=
  negb ((400 <=? status_code r) && (status_code r <? 600)).

Inductive unexpected : Type :=
| UnexpectedHTTP (status : option Z)   (* "Unexpected Confluence error (status=...)" *)
| UnexpectedOther.                     (* "Unexpected error while validating ..." *)

Inductive exn : Type :=
| KeyError (key : string)
| AttributeError
| TypeError
| ValueError
| NotImplementedError
| ConnectorMissingCredentialError (msg : string)
| CredentialExpiredError
| InsufficientPermissionsError
| UnexpectedError (why : unexpected)
| ConnectorValidationError
| RuntimeError (msg : string)
| HTTPError (response : option Response)
| OtherException (name : string).

(** A call either returns or raises. *)
Inductive result (A : Type) : Type :=
| Ok (a : A)
| Raise (e : exn).
Arguments Ok {A} a.
Arguments Raise {A} e.

Definition bind {A B : Type} (m : result A) (f : A -> result B) : result B :=
  match m with
  | Ok a => f a
  | Raise e => Raise e
  end.

Declare Scope py_scope.
Delimit Scope py_scope with py.
Notation "x <- m ;; k" := (bind m (fun x => k))
  (at level 61, m at next level, right associativity) : py_scope.
Notation "' pat <- m ;; k" := (bind m (fun x => match x with pat => k end))
  (at level 61, pat pattern, m at next level, right associativity) : py_scope.
Local Open Scope py_scope.

Fixpoint dict_get (d : list (string * json)) (k : string) : option json :=
  match d with
  | [] => None
  | (k', v) :: rest => if String.eqb k' k then Some v else dict_get rest k
  end.

(** [o[k]] *)
Definition getitem (o : json) (k : string) : result json :=
  match o with
  | JDict d => match dict_get d k with
               | Some v => Ok v
               | None => Raise (KeyError k)
               end
  | _ => Raise TypeError
  end.

(** [o.get(k, default)]; only dictionaries have [get]. *)
Definition get_default (o : json) (k : string) (default : json) : result json :=
  match o with
  | JDict d => match dict_get d k with
               | Some v => Ok v
               | None => Ok default
               end
  | _ => Raise AttributeError
  end.

(** [o.get(k)] *)
Definition get (o : json) (k : string) : result json := get_default o k JNone.

(** The identifiers and link fragments that the source interpolates into
    strings are annotated [str]; a value of another type is outside the
    annotated domain and is made an error here. *)
Definition as_str (v : json) : result string :=
  match v with
  | JStr s => Ok s
  | _ => Raise TypeError
  end.

(** [v == "literal"] *)
Definition eq_str (v : json) (s : string) : bool :=
  match v with
  | JStr t => String.eqb t s
  | _ => false
  end.

(* ================================================================= *)
(** ** Library functions on strings *)

(** [", ".join(parts)] with an arbitrary separator. *)
Fixpoint join (sep : string) (parts : list string) : string :=
  match parts with
  | [] => EmptyString
  | [p] => p
  | p :: rest => p +++ sep +++ join sep rest
  end.

(** [s.rstrip(c)] for a one-character argument. *)
Fixpoint rstrip (c : ascii) (s : string) : string :=
  match s with
  | EmptyString => EmptyString
  | String a rest =>
      match rstrip c rest with
      | EmptyString => if Ascii.eqb a c then EmptyString else String a EmptyString
      | kept => String a kept
      end
  end.

(** The string of [n] copies of a character: ["/" * n]. *)
Fixpoint replicate (n : nat) (c : ascii) : string :=
  match n with
  | O => EmptyString
  | S k => String c (replicate k c)
  end.

Definition in_range (lo hi c : ascii) : bool :=
  (N.leb (N_of_ascii lo) (N_of_ascii c)) && (N.leb (N_of_ascii c) (N_of_ascii hi)).

(** [urllib.parse.quote]: letters, digits and [_.-~] are never quoted, and
    ['/'] is the default [safe] argument. *)
Definition quote_safe (c : ascii) : bool :=
  in_range "a" "z" c || in_range "A" "Z" c || in_range "0" "9" c
  || Ascii.eqb c "_" || Ascii.eqb c "." || Ascii.eqb c "-" || Ascii.eqb c "~"
  || Ascii.eqb c "/".

Definition hex_digit (n : N) : ascii :=
  if N.ltb n 10 then ascii_of_N (48 + n) else ascii_of_N (55 + n).

(** Strings are their UTF-8 bytes, so quoting works byte by byte. *)
Fixpoint quote (s : string) : string :=
  match s with
  | EmptyString => EmptyString
  | String c rest =>
      if quote_safe c then String c (quote rest)
      else String "%" (String (hex_digit (N.div (N_of_ascii c) 16))
                         (String (hex_digit (N.modulo (N_of_ascii c) 16)) (quote rest)))
  end.

(* ================================================================= *)
(** ** [datetime.fromtimestamp(t, tz).strftime("%Y-%m-%d %H:%M")] *)

(** Day number since 1970-01-01 to (year, month, day) of the proleptic
    Gregorian calendar. *)
Definition civil_from_days (days : Z) : Z * Z * Z :=
  let z := days + 719468 in
  let era := z / 146097 in
  let doe := z - era * 146097 in
  let yoe := (doe - doe / 1460 + doe / 36524 - doe / 146096) / 365 in
  let doy := doe - (365 * yoe + yoe / 4 - yoe / 100) in
  let mp := (5 * doy + 2) / 153 in
  let d := doy - (153 * mp + 2) / 5 + 1 in
  let m := if mp <? 10 then mp + 3 else mp - 9 in
  let y := yoe + era * 400 in
  (if m <=? 2 then y + 1 else y, m, d).

Definition decimal (n : Z) : string := NilZero.string_of_uint (N.to_uint (Z.to_N n)).

Definition two_digits (n : Z) : string :=
  if n <? 10 then String "0" (decimal n) else decimal n.

(** Epoch seconds are whole seconds and the zone is its offset from UTC in
    seconds. [datetime] only has the years 1 to 9999. *)
Definition strftime_minute (tz_seconds : Z) (t : Z) : result string :=
  let local := t + tz_seconds in
  let '(y, m, d) := civil_from_days (local / 86400) in
  let sod := local mod 86400 in
  if (1 <=? y) && (y <=? 9999) then
    Ok (decimal y +++ "-" +++ two_digits m +++ "-" +++ two_digits d +++ " "
        +++ two_digits (sod / 3600) +++ ":" +++ two_digits ((sod mod 3600) / 60))%string
  else Raise ValueError.

(* ================================================================= *)
(** ** Lazy sequences and generators *)

(** What a paginated retrieval hands out: the records it yields, in
    order, and the exception that ends the iteration, if one does. *)
Record stream (A : Type) : Type := { items : list A; failure : option exn }.
Arguments items {A} s.
Arguments failure {A} s.

(** A [for] loop whose body may raise. *)
Fixpoint for_each {A S : Type} (xs : list A) (body : S -> A -> result S) (s : S)
  : result S :=
  match xs with
  | [] => Ok s
  | x :: rest => s' <- body s x ;; for_each rest body s'
  end.

Definition for_stream {A S : Type} (st : stream A) (body : S -> A -> result S) (s : S)
  : result S :=
  s' <- for_each (items st) body s ;;
  match failure st with
  | Some e => Raise e
  | None => Ok s'
  end.

(** What a generator does that its consumer or its heartbeat callback
    can see. *)
Inductive event (B : Type) : Type :=
| Yield (batch : B)
| ShouldStop (answer : bool)
| Progress (tag : string) (amount : Z).
Arguments Yield {B} batch.
Arguments ShouldStop {B} answer.
Arguments Progress {B} tag amount.

(** A generator run to its end: the events in order, and how the body
    finished. *)
Definition gen (B A : Type) : Type := (list (event B) * result A)%type.

Definition gen_ret {B A : Type} (a : A) : gen B A := ([], Ok a).
Definition lift {B A : Type} (r : result A) : gen B A := ([], r).
Definition emit {B : Type} (e : event B) : gen B unit := ([e], Ok tt).
Definition yield {B : Type} (b : B) : gen B unit := emit (Yield b).

Definition gen_bind {B A C : Type} (m : gen B A) (f : A -> gen B C) : gen B C :=
  match snd m with
  | Ok a => (fst m ++ fst (f a), snd (f a))
  | Raise e => (fst m, Raise e)
  end.

Notation "x <~ m ;; k" := (gen_bind m (fun x => k))
  (at level 61, m at next level, right associativity) : py_scope.
Notation "' pat <~ m ;; k" := (gen_bind m (fun x => match x with pat => k end))
  (at level 61, pat pattern, m at next level, right associativity) : py_scope.

Fixpoint gen_for_each {B A S : Type} (xs : list A) (body : S -> A -> gen B S) (s : S)
  : gen B S :=
  match xs with
  | [] => gen_ret s
  | x :: rest => s' <~ body s x ;; gen_for_each rest body s'
  end.

Definition gen_for {B A S : Type} (st : stream A) (body : S -> A -> gen B S) (s : S)
  : gen B S :=
  s' <~ gen_for_each (items st) body s ;;
  match failure st with
  | Some e => lift (Raise e)
  | None => gen_ret s'
  end.

(** The batches a run handed to its consumer. *)
Fixpoint batches {B : Type} (tr : list (event B)) : list B :=
  match tr with
  | [] => []
  | Yield b :: rest => b :: batches rest
  | _ :: rest => batches rest
  end.

Definition is_should_stop {B : Type} (e : event B) : bool :=
  match e with
  | ShouldStop _ => true
  | _ => false
  end.

(** How often the heartbeat's [should_stop] was called. *)
Definition stop_checks {B : Type} (tr : list (event B)) : nat :=
  List.length (filter is_should_stop tr).

(* ================================================================= *)
(** ** Documents *)

(** An aware [datetime], as seconds since the epoch. *)
Inductive datetime : Type := Datetime (utc_seconds : Z).

Inductive DocumentSource : Type := CONFLUENCE.

Module Document.
Record section : Type := { link : string; text : string }.
Record t : Type := {
  id : string;
  sections : list section;
  source : DocumentSource;
  semantic_identifier : json;
  doc_updated_at : option datetime;
  primary_owners : option (list json);
  metadata : list (string * json)
}.
End Document.

Module SlimDocument.
Record t : Type := { id : string; perm_sync_data : json }.
End SlimDocument.

(* ================================================================= *)
(** ** The Confluence client and the other collaborators *)

(** [OnyxConfluence]: each retrieval takes the CQL, the [expand] string
    and the optional page-size [limit]. *)
Record OnyxConfluence : Type := {
  paginated_cql_retrieval : string -> string -> option Z -> stream json;
  cql_paginate_all_expansions : string -> string -> option Z -> stream json;
  get_all_spaces : Z -> result json
}.

(** The heartbeat: what [should_stop()] answers at its n-th call. *)
Definition IndexingHeartbeatInterface : Type := nat -> bool.

(** Functions of [onyx.connectors.confluence.utils] and
    [onyx.connectors.confluence.onyx_confluence], whose code is not part
    of the connector, and the order in which the interpreter enumerates a
    set of strings. *)
Class Collaborators : Type := {
  CredentialsProviderInterface : Type;
  (** [OnyxConfluence(is_cloud, wiki_base, provider)], then the probe with
      [probe_kwargs] and the connection with [final_kwargs] *)
  connect : bool -> string -> CredentialsProviderInterface -> Z * Z -> Z * Z
            -> result OnyxConfluence;
  (** [list(set(xs))] *)
  list_of_set : list string -> list string;
  build_confluence_document_id : string -> string -> bool -> string;
  datetime_from_string : json -> result datetime;
  validate_attachment_filetype : json -> result bool;
  extract_text_from_confluence_html : OnyxConfluence -> json -> list json -> result string;
  attachment_to_content : OnyxConfluence -> json -> option string -> result (option string)
}.

(* ================================================================= *)
(** ** Module constants *)

Definition nl : string := String (ascii_of_nat 10) EmptyString.

Definition _COMMENT_EXPANSION_FIELDS : list string := ["body.storage.value"%string].
Definition _PAGE_EXPANSION_FIELDS : list string :=
  ["body.storage.value"; "version"; "space"; "metadata.labels"]%string.
Definition _ATTACHMENT_EXPANSION_FIELDS : list string :=
  ["version"; "space"; "metadata.labels"]%string.
Definition _RESTRICTIONS_EXPANSION_FIELDS : list string :=
  ["space";
   "restrictions.read.restrictions.user";
   "restrictions.read.restrictions.group";
   "ancestors.restrictions.read.restrictions.user";
   "ancestors.restrictions.read.restrictions.group"]%string.

Definition _SLIM_DOC_BATCH_SIZE : nat := 5000.

Definition _ATTACHMENT_EXTENSIONS_TO_FILTER_OUT : list string :=
  ["png"; "jpg"; "jpeg"; "gif"; "mp4"; "mov"; "mp3"; "wav"]%string.

Definition _FULL_EXTENSION_FILTER_STRING : string :=
  join "" (map (fun extension => " and title!~'*." +++ extension +++ "'")
               _ATTACHMENT_EXTENSIONS_TO_FILTER_OUT).

Definition probe_kwargs : Z * Z := (6, 10).
Definition final_kwargs : Z * Z := (10, 60).

(* ================================================================= *)
(** ** [class ConfluenceConnector] *)

Section Connector.

Context {collaborators : Collaborators}.

Record ConfluenceConnector : Type := {
  batch_size : Z;
  continue_on_failure : bool;
  is_cloud : bool;
  wiki_base : string;
  base_cql_page_query : string;
  cql_label_filter : string;
  (** the zone's offset from UTC, in seconds *)
  timezone : Z;
  credentials_provider : option CredentialsProviderInterface;
  _confluence_client : option OnyxConfluence
}.

(** [if s:] on a string *)
Definition nonempty (s : string) : bool := negb (String.eqb s EmptyString).

(** [if cql_query:] on [str | None]: the query when it is there and not
    the empty string. *)
Definition provided (o : option string) : option string :=
  match o with
  | Some s => if nonempty s then Some s else None
  | None => None
  end.

(** [__init__]. [timezone_offset] is the configured offset in seconds
    (the source takes hours as a float); [timezone(...)] refuses an offset
    that is not strictly within one day. *)
Definition __init__ (wiki_base : string) (is_cloud : bool) (space page_id : string)
    (index_recursively : bool) (cql_query : option string) (batch_size : Z)
    (continue_on_failure : bool) (labels_to_skip : list string) (timezone_offset : Z)
  : result ConfluenceConnector :=
  let wiki_base := rstrip "/" wiki_base in
  let base_cql_page_query := "type=page"%string in
  let base_cql_page_query :=
    match provided cql_query with
    | Some cql_query => cql_query
    | None =>
        if nonempty page_id then
          if index_recursively
          then base_cql_page_query +++ " and (ancestor='" +++ page_id +++ "' or id='"
                 +++ page_id +++ "')"
          else base_cql_page_query +++ " and id='" +++ page_id +++ "'"
        else if nonempty space then
          let uri_safe_space := quote space in
          base_cql_page_query +++ " and space='" +++ uri_safe_space +++ "'"
        else base_cql_page_query
    end in
  let cql_label_filter :=
    match labels_to_skip with
    | [] => EmptyString
    | _ =>
        let labels_to_skip := list_of_set labels_to_skip in
        let comma_separated_labels :=
          join "," (map (fun label => "'" +++ quote label +++ "'") labels_to_skip) in
        " and label not in (" +++ comma_separated_labels +++ ")"
    end in
  if (-86400 <? timezone_offset) && (timezone_offset <? 86400) then
    Ok {| batch_size := batch_size;
          continue_on_failure := continue_on_failure;
          is_cloud := is_cloud;
          wiki_base := wiki_base;
          base_cql_page_query := base_cql_page_query;
          cql_label_filter := cql_label_filter;
          timezone := timezone_offset;
          credentials_provider := None;
          _confluence_client := None |}
  else Raise ValueError.

(** The [confluence_client] property. *)
Definition confluence_client (self : ConfluenceConnector) : result OnyxConfluence :=
  match _confluence_client self with
  | None => Raise (ConnectorMissingCredentialError "Confluence")
  | Some client => Ok client
  end.

Definition set_credentials_provider (self : ConfluenceConnector)
    (provider : CredentialsProviderInterface) : result ConfluenceConnector :=
  client <- connect (is_cloud self) (wiki_base self) provider probe_kwargs final_kwargs ;;
  Ok {| batch_size := batch_size self;
        continue_on_failure := continue_on_failure self;
        is_cloud := is_cloud self;
        wiki_base := wiki_base self;
        base_cql_page_query := base_cql_page_query self;
        cql_label_filter := cql_label_filter self;
        timezone := timezone self;
        credentials_provider := Some provider;
        _confluence_client := Some client |}.

Definition load_credentials (self : ConfluenceConnector) (credentials : json)
  : result (option json) :=
  Raise NotImplementedError.

(** [if start:] on an optional number: absent and zero are both false. *)
Definition given (bound : option Z) : option Z :=
  match bound with
  | Some t => if t =? 0 then None else Some t
  | None => None
  end.

Definition _construct_page_query (self : ConfluenceConnector) (start end_ : option Z)
  : result string :=
  let page_query := base_cql_page_query self +++ cql_label_filter self in
  page_query <-
    match given start with
    | Some t =>
        formatted_start_time <- strftime_minute (timezone self) t ;;
        Ok (page_query +++ " and lastmodified >= '" +++ formatted_start_time +++ "'")
    | None => Ok page_query
    end ;;
  match given end_ with
  | Some t =>
      formatted_end_time <- strftime_minute (timezone self) t ;;
      Ok (page_query +++ " and lastmodified <= '" +++ formatted_end_time +++ "'")
  | None => Ok page_query
  end.

Definition _construct_attachment_query (self : ConfluenceConnector)
    (confluence_page_id : string) : string :=
  let attachment_query := "type=attachment and container='" +++ confluence_page_id +++ "'" in
  let attachment_query := attachment_query +++ cql_label_filter self in
  attachment_query +++ _FULL_EXTENSION_FILTER_STRING.

Definition _get_comment_string_for_page_id (self : ConfluenceConnector) (page_id : string)
  : result string :=
  let comment_string := EmptyString in
  let comment_cql := "type=comment and container='" +++ page_id +++ "'" in
  let comment_cql := comment_cql +++ cql_label_filter self in
  let expand := join "," _COMMENT_EXPANSION_FIELDS in
  client <- confluence_client self ;;
  for_stream (paginated_cql_retrieval client comment_cql expand None)
    (fun comment_string comment =>
       let comment_string := comment_string +++ nl +++ "Comment:" +++ nl in
       c <- confluence_client self ;;
       extracted <- extract_text_from_confluence_html c comment [] ;;
       Ok (comment_string +++ extracted))
    comment_string.

(** [for x in v] on a decoded value: a list gives its elements, a
    dictionary its keys, a string its characters. *)
Definition iterate (v : json) : result (list json) :=
  match v with
  | JList l => Ok l
  | JDict d => Ok (map (fun kv => JStr (fst kv)) d)
  | JStr s => Ok (map (fun c => JStr (String c EmptyString)) (list_ascii_of_string s))
  | _ => Raise TypeError
  end.

Definition _convert_object_to_document (self : ConfluenceConnector)
    (confluence_object : json) (parent_content_id : option string)
  : result (option Document.t) :=
  links <- getitem confluence_object "_links" ;;
  webui <- getitem links "webui" ;;
  webui <- as_str webui ;;
  let object_url := build_confluence_document_id (wiki_base self) webui (is_cloud self) in
  type <- getitem confluence_object "type" ;;
  object_text <-
    (if eq_str type "page" then
       client <- confluence_client self ;;
       title <- get_default confluence_object "title" (JStr "") ;;
       object_text <- extract_text_from_confluence_html client confluence_object [title] ;;
       page_id <- getitem confluence_object "id" ;;
       page_id <- as_str page_id ;;
       comments <- _get_comment_string_for_page_id self page_id ;;
       Ok (Some (object_text +++ comments))
     else
       type <- getitem confluence_object "type" ;;
       if eq_str type "attachment" then
         client <- confluence_client self ;;
         attachment_to_content client confluence_object parent_content_id
       else Ok None) ;;
  match object_text with
  | None => Ok None
  | Some object_text =>
      space <- getitem confluence_object "space" ;;
      space_name <- getitem space "name" ;;
      let doc_metadata := [("Wiki Space Name"%string, space_name)] in
      md <- get_default confluence_object "metadata" (JDict []) ;;
      labels <- get_default md "labels" (JDict []) ;;
      label_dicts <- get_default labels "results" (JList []) ;;
      label_dicts <- iterate label_dicts ;;
      page_labels <-
        for_each label_dicts
          (fun acc label =>
             name <- get label "name" ;;
             if truthy name then Ok (acc ++ [name]) else Ok acc)
          [] ;;
      let doc_metadata :=
        match page_labels with
        | [] => doc_metadata
        | _ => doc_metadata ++ [("labels"%string, JList page_labels)]
        end in
      version_dict <- get_default confluence_object "version" (JDict []) ;;
      when <- get version_dict "when" ;;
      last_modified <-
        (if truthy when
         then d <- datetime_from_string when ;; Ok (Some d)
         else Ok None) ;;
      by_ <- get_default version_dict "by" (JDict []) ;;
      author_email <- get by_ "email" ;;
      title <- get_default confluence_object "title" (JStr "Untitled Document") ;;
      Ok (Some {| Document.id := object_url;
                  Document.sections :=
                    [{| Document.link := object_url; Document.text := object_text |}];
                  Document.source := CONFLUENCE;
                  Document.semantic_identifier := title;
                  Document.doc_updated_at := last_modified;
                  Document.primary_owners :=
                    if truthy author_email then Some [author_email] else None;
                  Document.metadata := doc_metadata |})
  end.

(** One turn of either loop of the full fetch, after the conversion:
    append the document if there is one, and hand the batch out once it
    has reached the batch size. *)
Definition collect (self : ConfluenceConnector) (doc : option Document.t)
    (doc_batch : list Document.t) : gen (list Document.t) (list Document.t) :=
  let doc_batch :=
    match doc with
    | Some d => doc_batch ++ [d]
    | None => doc_batch
    end in
  if batch_size self <=? Z.of_nat (List.length doc_batch)
  then _ <~ yield doc_batch ;; gen_ret []
  else gen_ret doc_batch.

(** The body of the first loop: one page. *)
Definition fetch_page (self : ConfluenceConnector)
    (state : list Document.t * list string) (page : json)
  : gen (list Document.t) (list Document.t * list string) :=
  let '(doc_batch, confluence_page_ids) := state in
  page_id <~ lift (getitem page "id") ;;
  page_id <~ lift (as_str page_id) ;;
  let confluence_page_ids := confluence_page_ids ++ [page_id] in
  doc <~ lift (_convert_object_to_document self page None) ;;
  doc_batch <~ collect self doc doc_batch ;;
  gen_ret (doc_batch, confluence_page_ids).

(** The body of the inner loop of the second phase: one attachment. *)
Definition fetch_attachment (self : ConfluenceConnector) (confluence_page_id : string)
    (doc_batch : list Document.t) (attachment : json)
  : gen (list Document.t) (list Document.t) :=
  doc <~ lift (_convert_object_to_document self attachment (Some confluence_page_id)) ;;
  collect self doc doc_batch.

(** The body of the outer loop of the second phase: the attachments of
    one page. *)
Definition fetch_attachments (self : ConfluenceConnector)
    (doc_batch : list Document.t) (confluence_page_id : string)
  : gen (list Document.t) (list Document.t) :=
  let attachment_query := _construct_attachment_query self confluence_page_id in
  client <~ lift (confluence_client self) ;;
  gen_for (paginated_cql_retrieval client attachment_query
             (join "," _ATTACHMENT_EXPANSION_FIELDS) None)
    (fetch_attachment self confluence_page_id)
    doc_batch.

Definition _fetch_document_batches (self : ConfluenceConnector) (start end_ : option Z)
  : gen (list Document.t) unit :=
  page_query <~ lift (_construct_page_query self start end_) ;;
  client <~ lift (confluence_client self) ;;
  '(doc_batch, confluence_page_ids) <~
    gen_for (paginated_cql_retrieval client page_query (join "," _PAGE_EXPANSION_FIELDS)
               (Some (batch_size self)))
      (fetch_page self)
      ([], []) ;;
  doc_batch <~ gen_for_each confluence_page_ids (fetch_attachments self) doc_batch ;;
  match doc_batch with
  | [] => gen_ret tt
  | _ => yield doc_batch
  end.

Definition load_from_state (self : ConfluenceConnector) : gen (list Document.t) unit :=
  _fetch_document_batches self None None.

Definition poll_source (self : ConfluenceConnector) (start end_ : option Z)
  : gen (list Document.t) unit :=
  _fetch_document_batches self start end_.

(** [record.get("space", {}).get("key")] *)
Definition space_key_of (record : json) : result json :=
  space <- get_default record "space" (JDict []) ;;
  get space "key".

(** The permission payload of a page, with the two values its
    attachments inherit. *)
Definition page_perm_sync_data (page : json) : result (json * json * json) :=
  page_restrictions <- get page "restrictions" ;;
  page_space_key <- space_key_of page ;;
  page_ancestors <- get_default page "ancestors" (JList []) ;;
  Ok (JDict [("restrictions"%string, py_or page_restrictions (JDict []));
             ("space_key"%string, page_space_key);
             ("ancestors"%string, py_or page_ancestors (JList []))],
      page_restrictions, page_space_key).

Definition attachment_perm_sync_data (page_restrictions page_space_key attachment : json)
  : result json :=
  attachment_restrictions <- get attachment "restrictions" ;;
  let attachment_restrictions :=
    if negb (truthy attachment_restrictions) then page_restrictions
    else attachment_restrictions in
  attachment_space_key <- space_key_of attachment ;;
  let attachment_space_key :=
    if negb (truthy attachment_space_key) then page_space_key
    else attachment_space_key in
  Ok (JDict [("restrictions"%string, py_or attachment_restrictions (JDict []));
             ("space_key"%string, attachment_space_key)]).

(** [SlimDocument(id=build_confluence_document_id(...), perm_sync_data=...)] *)
Definition slim_document (self : ConfluenceConnector) (record perm_sync_data : json)
  : result SlimDocument.t :=
  links <- getitem record "_links" ;;
  webui <- getitem links "webui" ;;
  webui <- as_str webui ;;
  Ok {| SlimDocument.id :=
          build_confluence_document_id (wiki_base self) webui (is_cloud self);
        SlimDocument.perm_sync_data := perm_sync_data |}.

(** The body of the inner loop of the slim fetch. *)
Definition slim_attachment (self : ConfluenceConnector)
    (page_restrictions page_space_key : json)
    (doc_metadata_list : list SlimDocument.t) (attachment : json)
  : result (list SlimDocument.t) :=
  valid <- validate_attachment_filetype attachment ;;
  if negb valid then Ok doc_metadata_list
  else
    data <- attachment_perm_sync_data page_restrictions page_space_key attachment ;;
    doc <- slim_document self attachment data ;;
    Ok (doc_metadata_list ++ [doc]).

(** The heartbeat is only reached from inside the branch that has just
    handed out a full slice. The second component of the state counts
    the calls of [should_stop] made so far. *)
Definition heartbeat (callback : option IndexingHeartbeatInterface) (calls : nat)
  : gen (list SlimDocument.t) nat :=
  match callback with
  | Some should_stop =>
      let answer := should_stop calls in
      _ <~ emit (ShouldStop answer) ;;
      if answer
      then lift (Raise (RuntimeError "retrieve_all_slim_documents: Stop signal detected"))
      else _ <~ emit (Progress "retrieve_all_slim_documents" 1) ;; gen_ret (S calls)
  | None => gen_ret calls
  end.

(** One turn of the outer loop up to the size check: the record of the
    page, then those of its attachments. *)
Definition slim_page_records (self : ConfluenceConnector)
    (doc_metadata_list : list SlimDocument.t) (page : json)
  : result (list SlimDocument.t) :=
  '(data, page_restrictions, page_space_key) <- page_perm_sync_data page ;;
  doc <- slim_document self page data ;;
  let doc_metadata_list := doc_metadata_list ++ [doc] in
  page_id <- getitem page "id" ;;
  page_id <- as_str page_id ;;
  let attachment_query := _construct_attachment_query self page_id in
  client <- confluence_client self ;;
  for_stream (cql_paginate_all_expansions client attachment_query
                (join "," _RESTRICTIONS_EXPANSION_FIELDS)
                (Some (Z.of_nat _SLIM_DOC_BATCH_SIZE)))
    (slim_attachment self page_restrictions page_space_key)
    doc_metadata_list.

Definition slim_page (self : ConfluenceConnector)
    (callback : option IndexingHeartbeatInterface)
    (state : list SlimDocument.t * nat) (page : json)
  : gen (list SlimDocument.t) (list SlimDocument.t * nat) :=
  let '(doc_metadata_list, calls) := state in
  doc_metadata_list <~ lift (slim_page_records self doc_metadata_list page) ;;
  if Nat.ltb _SLIM_DOC_BATCH_SIZE (List.length doc_metadata_list) then
    _ <~ yield (firstn _SLIM_DOC_BATCH_SIZE doc_metadata_list) ;;
    let doc_metadata_list := skipn _SLIM_DOC_BATCH_SIZE doc_metadata_list in
    calls <~ heartbeat callback calls ;;
    gen_ret (doc_metadata_list, calls)
  else gen_ret (doc_metadata_list, calls).

Definition retrieve_all_slim_documents (self : ConfluenceConnector)
    (start end_ : option Z) (callback : option IndexingHeartbeatInterface)
  : gen (list SlimDocument.t) unit :=
  let restrictions_expand := join "," _RESTRICTIONS_EXPANSION_FIELDS in
  let page_query := base_cql_page_query self +++ cql_label_filter self in
  client <~ lift (confluence_client self) ;;
  '(doc_metadata_list, _) <~
    gen_for (cql_paginate_all_expansions client page_query restrictions_expand
               (Some (Z.of_nat _SLIM_DOC_BATCH_SIZE)))
      (slim_page self callback)
      ([], O) ;;
  yield doc_metadata_list.

(** [not spaces or not spaces.get("results")] *)
Definition no_spaces (spaces : json) : result bool :=
  if negb (truthy spaces) then Ok true
  else results <- get spaces "results" ;; Ok (negb (truthy results)).

(** [status_code == n], where [status_code] may be [None] *)
Definition is_status (status_code : option Z) (n : Z) : bool :=
  match status_code with
  | Some s => s =? n
  | None => false
  end.

Definition validate_connector_settings (self : ConfluenceConnector) : result unit :=
  match _confluence_client self with
  | None => Raise (ConnectorMissingCredentialError "Confluence credentials not loaded.")
  | Some client =>
      match get_all_spaces client 1 with
      | Raise (HTTPError response) =>
          let status_code :=
            match response with
            | Some r => if Response_bool r then Some (status_code r) else None
            | None => None
            end in
          if is_status status_code 401 then Raise CredentialExpiredError
          else if is_status status_code 403 then Raise InsufficientPermissionsError
          else Raise (UnexpectedError (UnexpectedHTTP status_code))
      | Raise _ => Raise (UnexpectedError UnexpectedOther)
      | Ok spaces =>
          empty <- no_spaces spaces ;;
          if empty then Raise ConnectorValidationError else Ok tt
      end
  end.

End Connector.

(* ================================================================= *)
(** ** Concrete collaborators for the worked runs *)

(** Stand-ins for the collaborators: ids are the wiki base followed by the
    link fragment, every attachment is indexable and has text. *)
#[local] Instance test_collaborators : Collaborators := {|
  CredentialsProviderInterface := unit;
  connect := fun _ _ _ _ _ => Raise (OtherException "offline");
  list_of_set := nodup string_dec;
  build_confluence_document_id := fun base_url content_url _ => base_url +++ content_url;
  datetime_from_string := fun _ => Ok (Datetime 0);
  validate_attachment_filetype := fun _ => Ok true;
  extract_text_from_confluence_html := fun _ _ _ => Ok "text"%string;
  attachment_to_content := fun _ _ _ => Ok (Some "content"%string)
|}.

Definition finished {A : Type} (xs : list A) : stream A :=
  {| items := xs; failure := None |}.

(** A client that answers every page query with [pages] and the
    attachment query of page [i] with [attachments i]. *)
Definition test_client (pages : list json) (attachments : string -> list json)
    (spaces : result json) : OnyxConfluence :=
  let answer := fun (cql _ : string) (_ : option Z) =>
    if String.prefix "type=page" cql then finished pages
    else if String.prefix "type=attachment and container='" cql
    then finished (attachments (substring 31 (String.length cql - 32 - String.length _FULL_EXTENSION_FILTER_STRING) cql))
    else finished [] in
  {| paginated_cql_retrieval := answer;
     cql_paginate_all_expansions := answer;
     get_all_spaces := fun _ => spaces |}.

Definition test_record (type id : string) (fields : list (string * json)) : json :=
  JDict ([("id", JStr id); ("type", JStr type);
          ("_links", JDict [("webui", JStr ("/" +++ type +++ "/" +++ id))])]%string
         ++ fields).

(** A connector with an attached client, as [set_credentials_provider]
    leaves it. *)
Definition attach (self : ConfluenceConnector) (client : OnyxConfluence)
  : ConfluenceConnector :=
  {| batch_size := batch_size self;
     continue_on_failure := continue_on_failure self;
     is_cloud := is_cloud self;
     wiki_base := wiki_base self;
     base_cql_page_query := base_cql_page_query self;
     cql_label_filter := cql_label_filter self;
     timezone := timezone self;
     credentials_provider := Some tt;
     _confluence_client := Some client |}.

Definition test_connector (batch_size : Z) (client : OnyxConfluence)
  : result ConfluenceConnector :=
  self <- __init__ "https://wiki.example/" false "" "" false None batch_size false [] 0 ;;
  Ok (attach self client).

(* ================================================================= *)
(** ** What the specification says, as definitions *)

(** No raw query: it is absent or the empty string. *)
Definition no_raw_query (cql_query : option string) : Prop :=
  cql_query = None \/ cql_query = Some EmptyString.

(** The priority rule of the page filter, case by case: raw query, then
    page id (alone or with its descendants), then space, then nothing. *)
Inductive page_filter (space page_id : string) (index_recursively : bool)
    (cql_query : option string) : string -> Prop :=
| filter_raw_query (q : string) :
    cql_query = Some q -> q <> EmptyString ->
    page_filter space page_id index_recursively cql_query q
| filter_page_id :
    no_raw_query cql_query -> page_id <> EmptyString -> index_recursively = false ->
    page_filter space page_id index_recursively cql_query
      ("type=page and id='" +++ page_id +++ "'")
| filter_page_tree :
    no_raw_query cql_query -> page_id <> EmptyString -> index_recursively = true ->
    page_filter space page_id index_recursively cql_query
      ("type=page and (ancestor='" +++ page_id +++ "' or id='" +++ page_id +++ "')")
| filter_space :
    no_raw_query cql_query -> page_id = EmptyString -> space <> EmptyString ->
    page_filter space page_id index_recursively cql_query
      ("type=page and space='" +++ quote space +++ "'")
| filter_none :
    no_raw_query cql_query -> page_id = EmptyString -> space = EmptyString ->
    page_filter space page_id index_recursively cql_query "type=page".

(** The clause of a time bound, as the code has it: none when the bound
    is absent or is epoch second 0, else the bound formatted to the minute
    in the configured zone. *)
Definition time_clause (op : string) (tz_seconds : Z) (bound : option Z) : result string :=
  match bound with
  | None => Ok EmptyString
  | Some t =>
      if t =? 0 then Ok EmptyString
      else stamp <- strftime_minute tz_seconds t ;;
           Ok (" and lastmodified " +++ op +++ " '" +++ stamp +++ "'")
  end.

(** The events of a run satisfy [P], and its value, if it returns one,
    satisfies [Q]. *)
Definition gen_spec {B A : Type} (P : event B -> Prop) (Q : A -> Prop) (m : gen B A) : Prop :=
  Forall P (fst m) /\ forall a, snd m = Ok a -> Q a.

(** A probe that fails with a real HTTP 401 response. *)
Definition unauthorized_client : OnyxConfluence :=
  test_client [] (fun _ => []) (Raise (HTTPError (Some {| status_code := 401 |}))).

Definition forbidden_client : OnyxConfluence :=
  test_client [] (fun _ => []) (Raise (HTTPError (Some {| status_code := 403 |}))).

Section Expected.

Context {collaborators : Collaborators}.

(** All the documents a run handed out, batch after batch. *)
Definition emitted {D : Type} (tr : list (event (list D))) : list D :=
  List.concat (batches tr).

(** A batch event of exactly [n] documents. *)
Definition full_batch {D : Type} (n : Z) (e : event (list D)) : Prop :=
  match e with
  | Yield b => Z.of_nat (List.length b) = n
  | _ => False
  end.

(** A batch event of at most one document. *)
Definition flushed (e : event (list Document.t)) : Prop :=
  match e with
  | Yield b => (List.length b <= 1)%nat
  | _ => False
  end.

(** The document a record converts to, if it converts to one. *)
Definition converted (self : ConfluenceConnector) (parent : option string) (record : json)
  : list Document.t :=
  match _convert_object_to_document self record parent with
  | Ok (Some d) => [d]
  | _ => []
  end.

(** The documents of the pages, in the order of the pages. *)
Definition page_documents (self : ConfluenceConnector) (pages : list json)
  : list Document.t :=
  flat_map (converted self None) pages.

Definition page_id_of (page : json) : list string :=
  match (page_id <- getitem page "id" ;; as_str page_id) with
  | Ok i => [i]
  | Raise _ => []
  end.

Definition page_ids (pages : list json) : list string := flat_map page_id_of pages.

(** The attachments the client returns for one page. *)
Definition attachments_of (self : ConfluenceConnector) (client : OnyxConfluence)
    (confluence_page_id : string) : stream json :=
  paginated_cql_retrieval client (_construct_attachment_query self confluence_page_id)
    (join "," _ATTACHMENT_EXPANSION_FIELDS) None.

(** The documents of the attachments: page by page in the order of the
    pages, and for each page in the order of its attachments. *)
Definition attachment_documents (self : ConfluenceConnector) (client : OnyxConfluence)
    (ids : list string) : list Document.t :=
  flat_map (fun i => flat_map (converted self (Some i)) (items (attachments_of self client i)))
           ids.

(** A run keeps track of [target]: what it has handed out, followed by
    what it still holds when it returns, is [target]; when it raises,
    what it has handed out is the beginning of [target]. *)
Definition tracks {D S : Type} (acc : S -> list D) (target : list D)
    (m : gen (list D) S) : Prop :=
  match snd m with
  | Ok s => emitted (fst m) ++ acc s = target
  | Raise _ => exists rest, emitted (fst m) ++ rest = target
  end.

(** A batch still being filled is strictly below the batch size. *)
Definition filling (self : ConfluenceConnector) (doc_batch : list Document.t) : Prop :=
  Z.of_nat (List.length doc_batch) < batch_size self.

Definition option_list {A : Type} (o : option A) : list A :=
  match o with
  | Some a => [a]
  | None => []
  end.

End Expected.

Section ExpectedSlim.

Context {collaborators : Collaborators}.

Definition stop_signal : exn :=
  RuntimeError "retrieve_all_slim_documents: Stop signal detected".

(** The traces of the slim fetch, from the [calls]-th call of the
    heartbeat on. A run hands out full slices; after each one it asks the
    heartbeat, if there is one, and stops with the stop signal when told
    to; it ends with the batch of what is left, or with an exception. *)
Inductive slim_run (callback : option IndexingHeartbeatInterface)
  : nat -> list (event (list SlimDocument.t)) -> result unit -> Prop :=
| slim_final (calls : nat) (remaining : list SlimDocument.t) :
    slim_run callback calls [Yield remaining] (Ok tt)
| slim_error (calls : nat) (e : exn) :
    slim_run callback calls [] (Raise e)
| slim_slice (calls : nat) (b : list SlimDocument.t) tr r :
    callback = None ->
    List.length b = _SLIM_DOC_BATCH_SIZE ->
    slim_run callback calls tr r ->
    slim_run callback calls (Yield b :: tr) r
| slim_slice_checked (calls : nat) (should_stop : IndexingHeartbeatInterface)
    (b : list SlimDocument.t) tr r :
    callback = Some should_stop ->
    should_stop calls = false ->
    List.length b = _SLIM_DOC_BATCH_SIZE ->
    slim_run callback (S calls) tr r ->
    slim_run callback calls
      (Yield b :: ShouldStop false :: Progress "retrieve_all_slim_documents" 1 :: tr) r
| slim_slice_stopped (calls : nat) (should_stop : IndexingHeartbeatInterface)
    (b : list SlimDocument.t) :
    callback = Some should_stop ->
    should_stop calls = true ->
    List.length b = _SLIM_DOC_BATCH_SIZE ->
    slim_run callback calls [Yield b; ShouldStop true] (Raise stop_signal).

(** A heartbeat that never asks to stop, or none at all. *)
Definition never_stops (callback : option IndexingHeartbeatInterface) : Prop :=
  forall should_stop, callback = Some should_stop -> forall n, should_stop n = false.

(** The pages of the slim fetch. *)
Definition slim_pages (self : ConfluenceConnector) (client : OnyxConfluence) : stream json :=
  cql_paginate_all_expansions client (base_cql_page_query self +++ cql_label_filter self)
    (join "," _RESTRICTIONS_EXPANSION_FIELDS) (Some (Z.of_nat _SLIM_DOC_BATCH_SIZE)).

(** The attachments the slim fetch asks for, for one page. *)
Definition slim_attachments_of (self : ConfluenceConnector) (client : OnyxConfluence)
    (page : json) : stream json :=
  match (page_id <- getitem page "id" ;; as_str page_id) with
  | Ok page_id =>
      cql_paginate_all_expansions client (_construct_attachment_query self page_id)
        (join "," _RESTRICTIONS_EXPANSION_FIELDS) (Some (Z.of_nat _SLIM_DOC_BATCH_SIZE))
  | Raise _ => {| items := []; failure := None |}
  end.

(** The slim document of an attachment, if it is indexable and converts. *)
Definition attachment_slim (self : ConfluenceConnector)
    (page_restrictions page_space_key attachment : json) : list SlimDocument.t :=
  match slim_attachment self page_restrictions page_space_key [] attachment with
  | Ok l => l
  | Raise _ => []
  end.

(** The slim documents of a page: its own, then those of its
    attachments in their order. *)
Definition page_slim_documents (self : ConfluenceConnector) (page : json)
  : list SlimDocument.t :=
  match slim_page_records self [] page with
  | Ok l => l
  | Raise _ => []
  end.

End ExpectedSlim.

(* ================================================================= *)
(** ** Concrete runs *)

(** What [__init__ "https://wiki.example/" ...] builds, with a client
    attached. *)
Definition demo_connector (batch_size : Z) (client : OnyxConfluence)
  : ConfluenceConnector :=
  {| batch_size := batch_size;
     continue_on_failure := false;
     is_cloud := false;
     wiki_base := "https://wiki.example";
     base_cql_page_query := "type=page";
     cql_label_filter := "";
     timezone := 0;
     credentials_provider := Some tt;
     _confluence_client := Some client |}.

Definition in_space (key name : string) : list (string * json) :=
  [("space"%string, JDict [("key"%string, JStr key); ("name"%string, JStr name)])].

(** Three pages in space A; the first one has two attachments. *)
Definition demo_client : OnyxConfluence :=
  test_client
    [test_record "page" "1" (in_space "A" "Space A");
     test_record "page" "2" (in_space "A" "Space A");
     test_record "page" "3" (in_space "A" "Space A")]
    (fun i => if String.eqb i "1"
              then [test_record "attachment" "7" (in_space "A" "Space A");
                    test_record "attachment" "8" (in_space "A" "Space A")]
              else [])
    (Ok (JDict [("results"%string, JList [JDict []])])).



(** One page with ten thousand indexable attachments. *)
Definition crowded_client : OnyxConfluence :=
  test_client [test_record "page" "1" (in_space "A" "Space A")]
    (fun _ => map (fun n => test_record "attachment" (decimal (Z.of_nat n)) [])
                  (seq 1 (2 * _SLIM_DOC_BATCH_SIZE)))
    (Ok JNone).

Definition crowded_page : json := test_record "page" "1" (in_space "A" "Space A").

Definition crowded_attachment (n : nat) : json :=
  test_record "attachment" (decimal (Z.of_nat n)) [].

(** The slim records of that page: its own, then one per attachment. *)
Definition crowded_attachment_slim (n : nat) : SlimDocument.t :=
  {| SlimDocument.id := "https://wiki.example/attachment/" +++ decimal (Z.of_nat n);
     SlimDocument.perm_sync_data :=
       JDict [("restrictions"%string, JDict []); ("space_key"%string, JStr "A")] |}.

Definition crowded_records : list SlimDocument.t :=
  {| SlimDocument.id := "https://wiki.example/page/1";
     SlimDocument.perm_sync_data :=
       JDict [("restrictions"%string, JDict []); ("space_key"%string, JStr "A");
              ("ancestors"%string, JList [])] |}
  :: map crowded_attachment_slim (seq 1 (2 * _SLIM_DOC_BATCH_SIZE)).

Definition comment_record (text : string) : json :=
  JDict [("type"%string, JStr "comment");
         ("_links"%string, JDict [("webui"%string, JStr "/comment/1")]);
         ("body"%string, JStr text)].

(** A client whose pages all have the same two comments. *)
Definition commented_client : OnyxConfluence :=
  {| paginated_cql_retrieval := fun cql _ _ =>
       if String.prefix "type=comment" cql
       then finished [comment_record "first"; comment_record "second"]
       else paginated_cql_retrieval demo_client cql EmptyString None;
     cql_paginate_all_expansions := cql_paginate_all_expansions demo_client;
     get_all_spaces := get_all_spaces demo_client |}.

Definition demo_page : json := test_record "page" "1" (in_space "A" "Space A").

Definition always_stop : IndexingHeartbeatInterface := fun _ => true.
Definition never_stop : IndexingHeartbeatInterface := fun _ => false.

(* ================================================================= *)
(** * Properties *)

Example strftime_minute_epoch : strftime_minute 0 0 = Ok "1970-01-01 00:00"%string.
Proof. reflexivity. Qed.

Example strftime_minute_2023 :
  strftime_minute 19800 1700000000 = Ok "2023-11-15 03:43"%string.
Proof. reflexivity. Qed.

Example quote_space : quote "my space/a&b" = "my%20space/a%26b"%string.
Proof. reflexivity. Qed.

Example rstrip_example :
  rstrip "/" "https://w.example//a///" = "https://w.example//a"%string.
Proof. reflexivity. Qed.

Lemma nonempty_true (s : string) : nonempty s = true <-> s <> EmptyString.
Proof.
  unfold nonempty. destruct s; simpl; split; intro H; congruence.
Qed.

Lemma nonempty_false (s : string) : nonempty s = false <-> s = EmptyString.
Proof.
  unfold nonempty. destruct s; simpl; split; intro H; congruence.
Qed.

Lemma provided_some (o : option string) (q : string) :
  provided o = Some q <-> o = Some q /\ q <> EmptyString.
Proof.
  unfold provided. destruct o as [s|].
  - destruct (nonempty s) eqn:E.
    + apply nonempty_true in E. split.
      * intro H. inversion H. subst. auto.
      * intros [H _]. exact H.
    + apply nonempty_false in E. subst. split.
      * discriminate.
      * intros [H Hq]. inversion H. subst. congruence.
  - split; [discriminate | intros [H _]; discriminate].
Qed.

Lemma provided_none (o : option string) : provided o = None <-> no_raw_query o.
Proof.
  unfold provided, no_raw_query. destruct o as [s|].
  - destruct (nonempty s) eqn:E.
    + apply nonempty_true in E. split; [discriminate|].
      intros [H|H]; [discriminate | inversion H; congruence].
    + apply nonempty_false in E. subst. split; auto.
  - split; auto.
Qed.

Lemma rstrip_replicate (c : ascii) (n : nat) : rstrip c (replicate n c) = EmptyString.
Proof.
  induction n as [|n IH]; simpl.
  - reflexivity.
  - rewrite IH, Ascii.eqb_refl. reflexivity.
Qed.

Lemma rstrip_append_replicate (c : ascii) (s : string) (n : nat) :
  rstrip c (s +++ replicate n c) = rstrip c s.
Proof.
  induction s as [|a s IH]; simpl.
  - apply rstrip_replicate.
  - rewrite IH. reflexivity.
Qed.

Lemma append_empty_r (s : string) : s +++ EmptyString = s.
Proof. induction s as [|c s IH]; simpl; [reflexivity | now rewrite IH]. Qed.

Lemma append_assoc (s1 s2 s3 : string) : (s1 +++ s2) +++ s3 = s1 +++ s2 +++ s3.
Proof. induction s1 as [|c s1 IH]; simpl; [reflexivity | now rewrite IH]. Qed.

Lemma minute_parts (x : Z) :
  x / 86400 = x / 60 / 1440
  /\ (x mod 86400) / 3600 = ((x / 60) mod 1440) / 60
  /\ ((x mod 86400) mod 3600) / 60 = (x / 60) mod 60.
Proof. repeat split; Z.div_mod_to_equations; lia. Qed.

(** The stamp has minute precision: it only depends on the minute the
    local time falls in. *)
Lemma strftime_minute_precision (tz t t' : Z) :
  (t + tz) / 60 = (t' + tz) / 60 -> strftime_minute tz t = strftime_minute tz t'.
Proof.
  intro H. unfold strftime_minute.
  destruct (minute_parts (t + tz)) as (-> & -> & ->).
  destruct (minute_parts (t' + tz)) as (-> & -> & ->).
  rewrite H. reflexivity.
Qed.

Section ConnectorProperties.

Context {collaborators : Collaborators}.

(** The constructor fails only on the time zone, and otherwise stores the
    query it built. *)
Lemma init_base_query wiki cloud space page_id rec cql bs cof labels tz self :
  __init__ wiki cloud space page_id rec cql bs cof labels tz = Ok self ->
  base_cql_page_query self =
    match provided cql with
    | Some q => q
    | None =>
        if nonempty page_id then
          if rec
          then "type=page and (ancestor='" +++ page_id +++ "' or id='" +++ page_id +++ "')"
          else "type=page and id='" +++ page_id +++ "'"
        else if nonempty space then "type=page and space='" +++ quote space +++ "'"
        else "type=page"
    end%string.
Proof.
  unfold __init__. destruct (_ && _); [|discriminate].
  intro H. inversion H. subst. simpl.
  destruct (provided cql); [reflexivity|].
  destruct (nonempty page_id); [destruct rec; reflexivity|].
  destruct (nonempty space); reflexivity.
Qed.

(** C1. Whatever the configuration, the base page query is the one string
    that the priority rule raw query > page id > space > none allows: the
    raw query itself; else the page-id filter (with the ancestor clause when
    indexing recursively); else the filter on the URL-escaped space; else the
    bare [type=page]. A raw query that is the empty string counts as absent,
    as an empty page id and an empty space do. *)
Theorem base_query_priority wiki cloud space page_id rec cql bs cof labels tz self :
  __init__ wiki cloud space page_id rec cql bs cof labels tz = Ok self ->
  forall q : string,
    page_filter space page_id rec cql q <-> q = base_cql_page_query self.
Proof.
  intros Hinit q. rewrite (init_base_query _ _ _ _ _ _ _ _ _ _ _ Hinit).
  split.
  - intros [q' Hq Hne | Hno Hp Hr | Hno Hp Hr | Hno Hp Hs | Hno Hp Hs].
    + assert (provided cql = Some q') as -> by (apply provided_some; auto).
      reflexivity.
    + apply provided_none in Hno. apply nonempty_true in Hp.
      rewrite Hno, Hp, Hr. reflexivity.
    + apply provided_none in Hno. apply nonempty_true in Hp.
      rewrite Hno, Hp, Hr. reflexivity.
    + apply provided_none in Hno. apply nonempty_false in Hp. apply nonempty_true in Hs.
      rewrite Hno, Hp, Hs. reflexivity.
    + apply provided_none in Hno. apply nonempty_false in Hp. apply nonempty_false in Hs.
      rewrite Hno, Hp, Hs. reflexivity.
  - intros ->. destruct (provided cql) as [q'|] eqn:Hc.
    + apply provided_some in Hc. destruct Hc. now apply filter_raw_query.
    + apply provided_none in Hc. destruct (nonempty page_id) eqn:Hp.
      * apply nonempty_true in Hp. destruct rec.
        -- now apply filter_page_tree.
        -- now apply filter_page_id.
      * apply nonempty_false in Hp. destruct (nonempty space) eqn:Hs.
        -- apply nonempty_true in Hs. now apply filter_space.
        -- apply nonempty_false in Hs. now apply filter_none.
Qed.

(** C10. Any number of trailing slashes on the wiki base changes nothing:
    the constructor returns the same connector, so the page query, the
    client that [set_credentials_provider] opens, and every batch of
    documents and of slim documents (ids and links included) are the same. *)
Theorem wiki_base_trailing_slashes wiki n cloud space page_id rec cql bs cof labels tz :
  let plain := __init__ wiki cloud space page_id rec cql bs cof labels tz in
  let slashed :=
    __init__ (wiki +++ replicate n "/") cloud space page_id rec cql bs cof labels tz in
  slashed = plain /\
  forall provider start end_ callback,
    (self <- slashed ;;
     self <- set_credentials_provider self provider ;;
     Ok (_construct_page_query self start end_,
         _fetch_document_batches self start end_,
         retrieve_all_slim_documents self start end_ callback))
    = (self <- plain ;;
       self <- set_credentials_provider self provider ;;
       Ok (_construct_page_query self start end_,
           _fetch_document_batches self start end_,
           retrieve_all_slim_documents self start end_ callback)).
Proof.
  intros plain slashed.
  assert (slashed = plain) as E.
  { unfold slashed, plain, __init__. rewrite rstrip_append_replicate. reflexivity. }
  split; [exact E|]. intros. rewrite E. reflexivity.
Qed.

(** The constructor keeps the wiki base without its trailing slashes. *)
Lemma init_wiki_base wiki cloud space page_id rec cql bs cof labels tz self :
  __init__ wiki cloud space page_id rec cql bs cof labels tz = Ok self ->
  wiki_base self = rstrip "/" wiki.
Proof.
  unfold __init__. destruct (_ && _); [|discriminate].
  intro H. inversion H. reflexivity.
Qed.

(** A bound of epoch second 0 is dropped: polling from 0 to 0 builds the
    query of an unbounded load, without either time clause. *)
Lemma construct_page_query_epoch_zero (self : ConfluenceConnector) :
  _construct_page_query self (Some 0) (Some 0)
  = Ok (base_cql_page_query self +++ cql_label_filter self)
  /\ _construct_page_query self (Some 0) (Some 0) = _construct_page_query self None None.
Proof. split; reflexivity. Qed.

(** C6, as the code has it. The page query is the base query and the
    label filter, followed by the clause of the start bound and the clause
    of the end bound; a bound has a clause, with its epoch second formatted
    to the minute in the configured zone, exactly when it is given and is
    not 0. *)
Theorem construct_page_query_bounds (self : ConfluenceConnector) (start end_ : option Z) :
  _construct_page_query self start end_
  = (lower <- time_clause ">=" (timezone self) start ;;
     upper <- time_clause "<=" (timezone self) end_ ;;
     Ok ((base_cql_page_query self +++ cql_label_filter self) +++ lower +++ upper)).
Proof.
  unfold _construct_page_query, time_clause, given.
  destruct start as [t|]; [destruct (t =? 0)|];
    destruct end_ as [u|]; try destruct (u =? 0); cbn [bind];
    try destruct (strftime_minute (timezone self) t) as [st|e]; cbn [bind];
    try destruct (strftime_minute (timezone self) u) as [su|e']; cbn [bind];
    rewrite ?append_empty_r, ?append_assoc; try reflexivity.
Qed.

(** Every other bound does add its clause. *)
Lemma construct_page_query_start (self : ConfluenceConnector) (t : Z) (stamp : string) :
  t <> 0 -> strftime_minute (timezone self) t = Ok stamp ->
  _construct_page_query self (Some t) None
  = Ok ((base_cql_page_query self +++ cql_label_filter self)
        +++ " and lastmodified >= '" +++ stamp +++ "'").
Proof.
  intros Ht Hs. unfold _construct_page_query, given.
  destruct (Z.eqb_spec t 0) as [->|_]; [congruence|].
  rewrite Hs. reflexivity.
Qed.

Lemma construct_page_query_end (self : ConfluenceConnector) (t : Z) (stamp : string) :
  t <> 0 -> strftime_minute (timezone self) t = Ok stamp ->
  _construct_page_query self None (Some t)
  = Ok ((base_cql_page_query self +++ cql_label_filter self)
        +++ " and lastmodified <= '" +++ stamp +++ "'").
Proof.
  intros Ht Hs. unfold _construct_page_query, given.
  destruct (Z.eqb_spec t 0) as [->|_]; [congruence|].
  rewrite Hs. reflexivity.
Qed.

Lemma construct_page_query_unbounded (self : ConfluenceConnector) :
  _construct_page_query self None None
  = Ok (base_cql_page_query self +++ cql_label_filter self).
Proof. reflexivity. Qed.

(** The parts of the validation that hold as specified. *)
Lemma validate_missing_credentials (self : ConfluenceConnector) :
  _confluence_client self = None ->
  validate_connector_settings self
  = Raise (ConnectorMissingCredentialError "Confluence credentials not loaded.").
Proof. intro H. unfold validate_connector_settings. rewrite H. reflexivity. Qed.

Lemma validate_no_spaces (self : ConfluenceConnector) (client : OnyxConfluence)
    (fields : list (string * json)) :
  _confluence_client self = Some client ->
  get_all_spaces client 1 = Ok (JDict fields) ->
  dict_get fields "results" = Some (JList []) ->
  validate_connector_settings self = Raise ConnectorValidationError.
Proof.
  intros Hc Hs Hr. unfold validate_connector_settings. rewrite Hc, Hs.
  unfold no_spaces, get, get_default. destruct fields as [|kv fields]; [reflexivity|].
  cbn [truthy negb]. rewrite Hr. reflexivity.
Qed.

Lemma validate_other_failure (self : ConfluenceConnector) (client : OnyxConfluence)
    (e : exn) :
  _confluence_client self = Some client ->
  get_all_spaces client 1 = Raise e ->
  (forall r, e <> HTTPError r) ->
  validate_connector_settings self = Raise (UnexpectedError UnexpectedOther).
Proof.
  intros Hc Hs Hne. unfold validate_connector_settings. rewrite Hc, Hs.
  destruct e; try reflexivity. exfalso. now apply (Hne response).
Qed.

(** An error response is false as a condition, so the status code read
    from it is [None] and neither 401 nor 403 is ever recognised. *)
Lemma validate_http_error_response (self : ConfluenceConnector) (client : OnyxConfluence)
    (r : Response) :
  _confluence_client self = Some client ->
  get_all_spaces client 1 = Raise (HTTPError (Some r)) ->
  400 <= status_code r < 600 ->
  validate_connector_settings self = Raise (UnexpectedError (UnexpectedHTTP None)).
Proof.
  intros Hc Hs Hr. unfold validate_connector_settings. rewrite Hc, Hs.
  unfold Response_bool.
  replace (400 <=? status_code r) with true by (symmetry; apply Z.leb_le; lia).
  replace (status_code r <? 600) with true by (symmetry; apply Z.ltb_lt; lia).
  reflexivity.
Qed.

Lemma no_spaces_raises (spaces : json) (e : exn) :
  no_spaces spaces = Raise e -> e = AttributeError.
Proof.
  unfold no_spaces, get, get_default.
  destruct (truthy spaces); cbn; [|discriminate].
  destruct spaces; cbn; try congruence.
  destruct (dict_get d "results"); discriminate.
Qed.

Lemma validate_never_credential_expired (self : ConfluenceConnector) :
  validate_connector_settings self <> Raise CredentialExpiredError
  /\ validate_connector_settings self <> Raise InsufficientPermissionsError.
Proof.
  unfold validate_connector_settings.
  destruct (_confluence_client self) as [client|]; [|split; discriminate].
  destruct (get_all_spaces client 1) as [spaces|e].
  - destruct (no_spaces spaces) as [[|]|e] eqn:E; cbn; try (split; discriminate).
    apply no_spaces_raises in E. subst. split; discriminate.
  - destruct e; try (split; discriminate).
    destruct response as [r|]; [|split; discriminate].
    unfold Response_bool, is_status.
    destruct (Z.leb_spec 400 (status_code r)); destruct (Z.ltb_spec (status_code r) 600);
      cbn [andb negb]; try (split; discriminate);
      destruct (Z.eqb_spec (status_code r) 401); try lia;
      destruct (Z.eqb_spec (status_code r) 403); try lia;
      split; discriminate.
Qed.

End ConnectorProperties.

(* ================================================================= *)
(** ** Reasoning about generators *)

Section GeneratorLaws.

Context {B : Type}.

Lemma gen_bind_ok {A C : Type} (m : gen B A) (f : A -> gen B C) (a : A) :
  snd m = Ok a -> gen_bind m f = (fst m ++ fst (f a), snd (f a)).
Proof. intro H. unfold gen_bind. rewrite H. reflexivity. Qed.

Lemma gen_bind_raise {A C : Type} (m : gen B A) (f : A -> gen B C) (e : exn) :
  snd m = Raise e -> gen_bind m f = (fst m, Raise e).
Proof. intro H. unfold gen_bind. rewrite H. reflexivity. Qed.

Lemma gen_bind_lift {A C : Type} (r : result A) (f : A -> gen B C) :
  gen_bind (lift r) f = match r with Ok a => f a | Raise e => ([], Raise e) end.
Proof.
  unfold gen_bind, lift. destruct r; simpl; [|reflexivity].
  destruct (f a); reflexivity.
Qed.

Lemma gen_bind_ret {A C : Type} (a : A) (f : A -> gen B C) :
  gen_bind (gen_ret a) f = f a.
Proof. unfold gen_bind, gen_ret. simpl. destruct (f a); reflexivity. Qed.

Lemma batches_app (tr1 tr2 : list (event B)) :
  batches (tr1 ++ tr2) = batches tr1 ++ batches tr2.
Proof.
  induction tr1 as [|e tr1 IH]; simpl; [reflexivity|].
  destruct e; simpl; rewrite IH; reflexivity.
Qed.

Lemma gen_spec_ret {A : Type} (P : event B -> Prop) (Q : A -> Prop) (a : A) :
  Q a -> gen_spec P Q (gen_ret a).
Proof.
  intro H. split; simpl; [constructor|]. intros a' E. inversion E. subst. exact H.
Qed.

Lemma gen_spec_lift {A : Type} (P : event B -> Prop) (Q : A -> Prop) (r : result A) :
  (forall a, r = Ok a -> Q a) -> gen_spec P Q (lift r).
Proof. intro H. split; simpl; [constructor | exact H]. Qed.

Lemma gen_spec_bind {A C : Type} (P : event B -> Prop) (Q : A -> Prop) (R : C -> Prop)
    (m : gen B A) (f : A -> gen B C) :
  gen_spec P Q m -> (forall a, Q a -> gen_spec P R (f a)) -> gen_spec P R (gen_bind m f).
Proof.
  intros [Hm Hq] Hf. destruct (snd m) as [a|e] eqn:E.
  - rewrite (gen_bind_ok _ _ _ E). destruct (Hf a (Hq a eq_refl)) as [Hfa Hr].
    split; simpl; [apply Forall_app; auto | exact Hr].
  - rewrite (gen_bind_raise _ _ _ E). split; simpl; [exact Hm | discriminate].
Qed.

Lemma gen_spec_for_each {A S : Type} (P : event B -> Prop) (I : S -> Prop)
    (body : S -> A -> gen B S) (xs : list A) :
  (forall s x, I s -> gen_spec P I (body s x)) ->
  forall s, I s -> gen_spec P I (gen_for_each xs body s).
Proof.
  intro Hbody. induction xs as [|x xs IH]; intros s Hs; simpl.
  - now apply gen_spec_ret.
  - apply gen_spec_bind with (Q := I); auto.
Qed.

Lemma gen_spec_for {A S : Type} (P : event B -> Prop) (I : S -> Prop)
    (body : S -> A -> gen B S) (st : stream A) :
  (forall s x, I s -> gen_spec P I (body s x)) ->
  forall s, I s -> gen_spec P I (gen_for st body s).
Proof.
  intros Hbody s Hs. unfold gen_for.
  apply gen_spec_bind with (Q := I).
  - now apply gen_spec_for_each.
  - intros s' Hs'. destruct (failure st).
    + apply gen_spec_lift. discriminate.
    + now apply gen_spec_ret.
Qed.

End GeneratorLaws.

Lemma full_batches_exact {D : Type} (n : Z) (tr : list (event (list D))) :
  Forall (full_batch n) tr ->
  Forall (fun b => Z.of_nat (List.length b) = n) (batches tr).
Proof.
  induction 1 as [|e tr He _ IH]; simpl; [constructor|].
  destruct e; simpl in He; try contradiction. constructor; assumption.
Qed.

Lemma Forall_removelast {A : Type} (P : A -> Prop) (l : list A) :
  Forall P l -> Forall P (removelast l).
Proof.
  induction 1 as [|x l Hx Hl IH]; simpl; [constructor|].
  destruct l; [constructor|]. constructor; assumption.
Qed.

(* ================================================================= *)
(** ** The full fetch *)

Section FullFetch.

Context {collaborators : Collaborators}.

Variable self : ConfluenceConnector.
Hypothesis batch_size_positive : 1 <= batch_size self.

Lemma collect_spec (doc : option Document.t) (doc_batch : list Document.t) :
  filling self doc_batch ->
  gen_spec (full_batch (batch_size self)) (filling self) (collect self doc doc_batch).
Proof.
  unfold filling, collect. intro Hlen.
  set (db := match doc with Some d => doc_batch ++ [d] | None => doc_batch end).
  assert (Z.of_nat (List.length db) <= batch_size self) as Hdb.
  { subst db. destruct doc; [rewrite length_app; simpl|]; lia. }
  destruct (Z.leb_spec (batch_size self) (Z.of_nat (List.length db))) as [Hge|Hlt].
  - unfold yield, emit, gen_bind, gen_ret. simpl. split; simpl.
    + constructor; [simpl; lia | constructor].
    + intros a E. inversion E. subst. simpl. lia.
  - apply gen_spec_ret. exact Hlt.
Qed.

Lemma fetch_page_spec (state : list Document.t * list string) (page : json) :
  filling self (fst state) ->
  gen_spec (full_batch (batch_size self)) (fun s => filling self (fst s))
           (fetch_page self state page).
Proof.
  destruct state as [doc_batch ids]. simpl. intro Hlen. unfold fetch_page.
  rewrite gen_bind_lift. destruct (getitem page "id") as [i|e];
    [|split; simpl; [constructor | discriminate]].
  rewrite gen_bind_lift. destruct (as_str i) as [i'|e];
    [|split; simpl; [constructor | discriminate]].
  rewrite gen_bind_lift. destruct (_convert_object_to_document self page None) as [doc|e];
    [|split; simpl; [constructor | discriminate]].
  apply gen_spec_bind with (Q := (filling self)).
  - now apply collect_spec.
  - intros db Hdb. now apply gen_spec_ret.
Qed.

Lemma fetch_attachments_spec (doc_batch : list Document.t) (i : string) :
  filling self doc_batch ->
  gen_spec (full_batch (batch_size self)) (filling self) (fetch_attachments self doc_batch i).
Proof.
  intro Hlen. unfold fetch_attachments.
  rewrite gen_bind_lift. destruct (confluence_client self) as [client|e];
    [|split; simpl; [constructor | discriminate]].
  apply gen_spec_for; [|exact Hlen].
  intros db a Hdb. unfold fetch_attachment.
  rewrite gen_bind_lift.
  destruct (_convert_object_to_document self a (Some i)) as [doc|e];
    [|split; simpl; [constructor | discriminate]].
  now apply collect_spec.
Qed.

(** The run is a sequence of full batches, followed by at most one
    batch that is not empty and not full. *)
Lemma fetch_trace_shape (start end_ : option Z) :
  exists full last,
    fst (_fetch_document_batches self start end_) = full ++ last
    /\ Forall (full_batch (batch_size self)) full
    /\ (last = [] \/ exists b, last = [Yield b] /\ b <> [] /\ (filling self) b).
Proof.
  unfold _fetch_document_batches.
  rewrite gen_bind_lift. destruct (_construct_page_query self start end_) as [q|e];
    [|exists [], []; simpl; auto].
  rewrite gen_bind_lift. destruct (confluence_client self) as [client|e];
    [|exists [], []; simpl; auto].
  match goal with |- context [gen_bind ?m ?f] => set (loop1 := m); set (k := f) end.
  assert (gen_spec (full_batch (batch_size self)) (fun s => filling self (fst s)) loop1)
    as [H1 Q1].
  { apply gen_spec_for.
    - intros s x Hs. now apply fetch_page_spec.
    - simpl. unfold filling. simpl. lia. }
  destruct (snd loop1) as [[doc_batch ids]|e] eqn:E1.
  2:{ rewrite (gen_bind_raise _ _ _ E1). exists (fst loop1), []. simpl.
      rewrite app_nil_r. auto. }
  rewrite (gen_bind_ok _ _ _ E1). subst k. cbv beta iota.
  match goal with |- context [gen_bind ?m ?f] => set (loop2 := m); set (k := f) end.
  assert (gen_spec (full_batch (batch_size self)) (filling self) loop2) as [H2 Q2].
  { apply gen_spec_for_each.
    - intros s x Hs. now apply fetch_attachments_spec.
    - exact (Q1 _ eq_refl). }
  destruct (snd loop2) as [doc_batch2|e] eqn:E2.
  2:{ rewrite (gen_bind_raise _ _ _ E2). exists (fst loop1 ++ fst loop2), []. simpl.
      rewrite app_nil_r. split; [reflexivity|]. split; [apply Forall_app; auto | auto]. }
  rewrite (gen_bind_ok _ _ _ E2). subst k. cbv beta.
  exists (fst loop1 ++ fst loop2). specialize (Q2 _ eq_refl).
  destruct doc_batch2 as [|d rest].
  - exists []. simpl. rewrite !app_nil_r. split; [reflexivity|].
    split; [apply Forall_app; auto | auto].
  - exists [Yield (d :: rest)]. simpl. rewrite <- app_assoc.
    split; [reflexivity|]. split; [apply Forall_app; auto|].
    right. exists (d :: rest). split; [reflexivity|]. split; [discriminate | exact Q2].
Qed.

End FullFetch.

(* ================================================================= *)
(** ** The order of the documents of the full fetch *)

Section FullFetchOrder.

Context {collaborators : Collaborators}.

Lemma emitted_app {D : Type} (tr1 tr2 : list (event (list D))) :
  emitted (tr1 ++ tr2) = emitted tr1 ++ emitted tr2.
Proof. unfold emitted. rewrite batches_app. apply concat_app. Qed.

Lemma tracks_raise {D S : Type} (acc : S -> list D) (target : list D) (e : exn) :
  tracks acc target ([], Raise e).
Proof. unfold tracks. simpl. now exists target. Qed.

Lemma tracks_bind {D S T : Type} (acc1 : S -> list D) (acc2 : T -> list D)
    (target extra : list D) (m : gen (list D) S) (f : S -> gen (list D) T) :
  tracks acc1 target m ->
  (forall s, snd m = Ok s -> tracks acc2 (acc1 s ++ extra) (f s)) ->
  tracks acc2 (target ++ extra) (gen_bind m f).
Proof.
  unfold tracks. intros Hm Hf. destruct (snd m) as [s|e] eqn:E.
  - rewrite (gen_bind_ok _ _ _ E). simpl. specialize (Hf s eq_refl).
    rewrite emitted_app. destruct (snd (f s)) as [t|e].
    + rewrite <- app_assoc, Hf, app_assoc, Hm. reflexivity.
    + destruct Hf as [rest Hrest]. exists rest.
      rewrite <- app_assoc, Hrest, app_assoc, Hm. reflexivity.
  - rewrite (gen_bind_raise _ _ _ E). simpl. destruct Hm as [rest Hrest].
    exists (rest ++ extra). rewrite app_assoc, Hrest. reflexivity.
Qed.

Lemma tracks_for_each {D A S : Type} (acc : S -> list D) (g : A -> list D)
    (body : S -> A -> gen (list D) S) (xs : list A) :
  (forall s x, tracks acc (acc s ++ g x) (body s x)) ->
  forall s, tracks acc (acc s ++ flat_map g xs) (gen_for_each xs body s).
Proof.
  intro Hbody. induction xs as [|x xs IH]; intro s; simpl.
  - unfold tracks. simpl. rewrite app_nil_r. reflexivity.
  - rewrite app_assoc. apply tracks_bind with (acc1 := acc); auto.
Qed.

Lemma tracks_for {D A S : Type} (acc : S -> list D) (g : A -> list D)
    (body : S -> A -> gen (list D) S) (st : stream A) :
  (forall s x, tracks acc (acc s ++ g x) (body s x)) ->
  forall s, tracks acc (acc s ++ flat_map g (items st)) (gen_for st body s).
Proof.
  intros Hbody s. unfold gen_for.
  rewrite <- (app_nil_r (acc s ++ flat_map g (items st))).
  apply tracks_bind with (acc1 := acc).
  - now apply tracks_for_each.
  - intros s' _. destruct (failure st).
    + unfold tracks. simpl. exists (acc s' ++ []). reflexivity.
    + unfold tracks. simpl. rewrite app_nil_r. reflexivity.
Qed.

Variable self : ConfluenceConnector.

Lemma tracks_collect (doc : option Document.t) (doc_batch : list Document.t) :
  tracks (fun b => b) (doc_batch ++ option_list doc) (collect self doc doc_batch).
Proof.
  unfold collect.
  assert (match doc with Some d => doc_batch ++ [d] | None => doc_batch end
          = doc_batch ++ option_list doc) as ->.
  { destruct doc; simpl; [reflexivity | now rewrite app_nil_r]. }
  destruct (_ <=? _); unfold tracks, emitted; simpl.
  - now rewrite !app_nil_r.
  - reflexivity.
Qed.

Lemma converted_ok (parent : option string) (record : json) (doc : option Document.t) :
  _convert_object_to_document self record parent = Ok doc ->
  converted self parent record = option_list doc.
Proof. unfold converted. intros ->. destruct doc; reflexivity. Qed.

Lemma tracks_fetch_page (state : list Document.t * list string) (page : json) :
  tracks fst (fst state ++ converted self None page) (fetch_page self state page).
Proof.
  destruct state as [doc_batch ids]. unfold fetch_page.
  rewrite gen_bind_lift. destruct (getitem page "id") as [i|e]; [|apply tracks_raise].
  rewrite gen_bind_lift. destruct (as_str i) as [i'|e]; [|apply tracks_raise].
  rewrite gen_bind_lift.
  destruct (_convert_object_to_document self page None) as [doc|e] eqn:E;
    [|apply tracks_raise].
  rewrite (converted_ok _ _ _ E). simpl fst.
  rewrite <- (app_nil_r (doc_batch ++ option_list doc)).
  apply tracks_bind with (acc1 := fun b => b).
  - apply tracks_collect.
  - intros b _. unfold tracks. simpl. now rewrite app_nil_r.
Qed.

Lemma tracks_fetch_attachments (client : OnyxConfluence) (doc_batch : list Document.t)
    (i : string) :
  _confluence_client self = Some client ->
  tracks (fun b => b)
    (doc_batch ++ flat_map (converted self (Some i)) (items (attachments_of self client i)))
    (fetch_attachments self doc_batch i).
Proof.
  intro Hc. unfold fetch_attachments, confluence_client. rewrite Hc, gen_bind_lift.
  apply (tracks_for (fun b => b) (converted self (Some i))).
  intros b a. unfold fetch_attachment. rewrite gen_bind_lift.
  destruct (_convert_object_to_document self a (Some i)) as [doc|e] eqn:E;
    [|apply tracks_raise].
  rewrite (converted_ok _ _ _ E). apply tracks_collect.
Qed.

Lemma fetch_page_id (state state' : list Document.t * list string) (page : json) :
  snd (fetch_page self state page) = Ok state' ->
  snd state' = snd state ++ page_id_of page.
Proof.
  destruct state as [doc_batch ids]. unfold fetch_page, page_id_of.
  rewrite gen_bind_lift. destruct (getitem page "id") as [i|e]; [|discriminate].
  rewrite gen_bind_lift. simpl bind. destruct (as_str i) as [i'|e]; [|discriminate].
  rewrite gen_bind_lift.
  destruct (_convert_object_to_document self page None) as [doc|e]; [|discriminate].
  destruct (snd (collect self doc doc_batch)) as [b|e] eqn:E.
  - rewrite (gen_bind_ok _ _ _ E). simpl. intro H. inversion H. reflexivity.
  - rewrite (gen_bind_raise _ _ _ E). discriminate.
Qed.

(** The page loop collects the ids of the pages in their order. *)
Lemma fetch_page_ids (pages : list json) :
  forall state state',
    snd (gen_for_each pages (fetch_page self) state) = Ok state' ->
    snd state' = snd state ++ page_ids pages.
Proof.
  induction pages as [|page pages IH]; intros state state'.
  - simpl. intro H. inversion H. simpl. now rewrite app_nil_r.
  - cbn [gen_for_each page_ids flat_map].
    destruct (snd (fetch_page self state page)) as [s1|e] eqn:E.
    + rewrite (gen_bind_ok _ _ _ E). simpl snd at 1. intro H.
      apply IH in H. apply fetch_page_id in E. rewrite H, E.
      now rewrite <- app_assoc.
    + rewrite (gen_bind_raise _ _ _ E). discriminate.
Qed.

(** C3. With a client attached, the documents of the run, batch after
    batch, are the beginning of the list made of the documents of the
    pages, in the order the page query returned the pages, followed by the
    documents of the attachments, page by page and in the order each
    attachment query returned them; and they are all of that list when the
    run returns. *)
Theorem pages_before_attachments (client : OnyxConfluence) (start end_ : option Z)
    (page_query : string) :
  _confluence_client self = Some client ->
  _construct_page_query self start end_ = Ok page_query ->
  let pages :=
    items (paginated_cql_retrieval client page_query (join "," _PAGE_EXPANSION_FIELDS)
             (Some (batch_size self))) in
  let run := _fetch_document_batches self start end_ in
  exists rest,
    emitted (fst run) ++ rest
    = page_documents self pages ++ attachment_documents self client (page_ids pages)
    /\ (snd run = Ok tt -> rest = []).
Proof.
  intros Hc Hq pages run. subst run. unfold _fetch_document_batches.
  rewrite Hq, gen_bind_lift. unfold confluence_client. rewrite Hc, gen_bind_lift.
  match goal with |- context [gen_bind ?m ?f] => set (loop1 := m); set (k := f) end.
  assert (tracks fst (page_documents self pages) loop1) as T1.
  { apply (tracks_for fst (converted self None) (fetch_page self) _
             (fun s x => tracks_fetch_page s x) ([], [])). }
  unfold tracks in T1.
  destruct (snd loop1) as [[doc_batch ids]|e] eqn:E1.
  2:{ rewrite (gen_bind_raise _ _ _ E1). simpl. destruct T1 as [rest Hrest].
      exists (rest ++ attachment_documents self client (page_ids pages)).
      rewrite app_assoc, Hrest. split; [reflexivity | discriminate]. }
  assert (ids = page_ids pages) as ->.
  { unfold loop1, gen_for in E1.
    destruct (snd (gen_for_each pages (fetch_page self) ([], []))) as [s'|e] eqn:E.
    - rewrite (gen_bind_ok _ _ _ E) in E1. apply fetch_page_ids in E. simpl in E.
      fold pages in E1.
      destruct (failure _); simpl in E1; [discriminate|].
      inversion E1. subst s'. exact E.
    - rewrite (gen_bind_raise _ _ _ E) in E1. discriminate. }
  rewrite (gen_bind_ok _ _ _ E1). subst k. cbv beta iota. simpl in T1.
  match goal with |- context [gen_bind ?m ?f] => set (loop2 := m); set (k := f) end.
  assert (tracks (fun b => b)
            (doc_batch ++ attachment_documents self client (page_ids pages)) loop2) as T2.
  { apply (tracks_for_each (fun b => b)
             (fun i => flat_map (converted self (Some i))
                         (items (attachments_of self client i)))).
    intros b i. now apply tracks_fetch_attachments. }
  unfold tracks in T2.
  destruct (snd loop2) as [doc_batch2|e] eqn:E2.
  2:{ rewrite (gen_bind_raise _ _ _ E2). simpl. destruct T2 as [rest Hrest].
      exists rest. rewrite emitted_app, <- app_assoc, Hrest, app_assoc, T1.
      split; [reflexivity | discriminate]. }
  rewrite (gen_bind_ok _ _ _ E2). subst k. cbv beta.
  exists []. split; [|reflexivity]. rewrite app_nil_r, <- T1. cbn [fst snd].
  rewrite <- app_assoc, <- T2, !emitted_app. f_equal. f_equal.
  destruct doc_batch2; simpl; [reflexivity|].
  unfold emitted. simpl. now rewrite app_nil_r.
Qed.

(** C2. With a batch size of at least one, no batch of a load or of a
    poll holds more documents than the batch size, and every batch but
    the last holds exactly that many. *)
Theorem full_fetch_batch_sizes (start end_ : option Z) (run : gen (list Document.t) unit) :
  1 <= batch_size self ->
  run = load_from_state self \/ run = poll_source self start end_ ->
  Forall (fun b => Z.of_nat (List.length b) <= batch_size self) (batches (fst run))
  /\ Forall (fun b => Z.of_nat (List.length b) = batch_size self)
            (removelast (batches (fst run))).
Proof.
  intros Hbs Hrun.
  assert (exists s e, run = _fetch_document_batches self s e) as (s & e & ->).
  { destruct Hrun as [-> | ->]; [exists None, None | exists start, end_]; reflexivity. }
  destruct (fetch_trace_shape self Hbs s e) as (full & last & -> & Hfull & Hlast).
  apply full_batches_exact in Hfull. rewrite batches_app.
  destruct Hlast as [-> | (b & -> & _ & Hb)]; simpl.
  - rewrite app_nil_r. split.
    + eapply Forall_impl; [|exact Hfull]. simpl. intros. lia.
    + now apply Forall_removelast.
  - rewrite removelast_last. split; [|exact Hfull].
    apply Forall_app. split.
    + eapply Forall_impl; [|exact Hfull]. simpl. intros. lia.
    + constructor; [|constructor]. unfold filling in Hb. lia.
Qed.

End FullFetchOrder.

(* ================================================================= *)
(** ** The slim fetch *)

Section SlimFetch.

Context {collaborators : Collaborators}.

Lemma gen_bind_assoc {B A C D : Type} (m : gen B A) (f : A -> gen B C) (g : C -> gen B D) :
  gen_bind (gen_bind m f) g = gen_bind m (fun a => gen_bind (f a) g).
Proof.
  destruct m as [tr [a|e]]; unfold gen_bind; cbn [fst snd]; [|reflexivity].
  destruct (f a) as [tr' [c|e]]; cbn [fst snd]; [|reflexivity].
  now rewrite app_assoc.
Qed.

Lemma gen_bind_emit {B C : Type} (e : event B) (f : unit -> gen B C) :
  gen_bind (emit e) f = (e :: fst (f tt), snd (f tt)).
Proof. reflexivity. Qed.

Variable self : ConfluenceConnector.
Variable callback : option IndexingHeartbeatInterface.

(** What one turn of the page loop can do. *)
Lemma slim_page_step (doc_metadata_list : list SlimDocument.t) (calls : nat) (page : json) :
  let r := slim_page self callback (doc_metadata_list, calls) page in
  (exists e, r = ([], Raise e))
  \/ (exists l, r = ([], Ok (l, calls)))
  \/ (exists b l, callback = None /\ List.length b = _SLIM_DOC_BATCH_SIZE
                  /\ r = ([Yield b], Ok (l, calls)))
  \/ (exists should_stop b l,
        callback = Some should_stop /\ should_stop calls = false
        /\ List.length b = _SLIM_DOC_BATCH_SIZE
        /\ r = ([Yield b; ShouldStop false; Progress "retrieve_all_slim_documents" 1],
                Ok (l, S calls)))
  \/ (exists should_stop b,
        callback = Some should_stop /\ should_stop calls = true
        /\ List.length b = _SLIM_DOC_BATCH_SIZE
        /\ r = ([Yield b; ShouldStop true], Raise stop_signal)).
Proof.
  intro r. subst r. unfold slim_page.
  rewrite gen_bind_lift.
  destruct (slim_page_records self doc_metadata_list page) as [l|e]; [|left; now exists e].
  destruct (Nat.ltb_spec _SLIM_DOC_BATCH_SIZE (List.length l)) as [Hlt|Hge].
  2:{ right; left. now exists l. }
  assert (List.length (firstn _SLIM_DOC_BATCH_SIZE l) = _SLIM_DOC_BATCH_SIZE) as Hlen.
  { apply firstn_length_le. lia. }
  unfold yield. rewrite gen_bind_emit. unfold heartbeat.
  destruct callback as [should_stop|].
  - destruct (should_stop calls) eqn:Hs.
    + right; right; right; right. exists should_stop, (firstn _SLIM_DOC_BATCH_SIZE l).
      repeat split; auto.
    + right; right; right; left.
      exists should_stop, (firstn _SLIM_DOC_BATCH_SIZE l), (skipn _SLIM_DOC_BATCH_SIZE l).
      repeat split; auto.
  - right; right; left.
    exists (firstn _SLIM_DOC_BATCH_SIZE l), (skipn _SLIM_DOC_BATCH_SIZE l).
    repeat split; auto.
Qed.

Lemma slim_loop_shape (k : list SlimDocument.t * nat -> gen (list SlimDocument.t) unit)
    (pages : list json) :
  (forall s calls, slim_run callback calls (fst (k s)) (snd (k s))) ->
  forall doc_metadata_list calls,
    let r := gen_bind (gen_for_each pages (slim_page self callback)
                         (doc_metadata_list, calls)) k in
    slim_run callback calls (fst r) (snd r).
Proof.
  intro Hk. induction pages as [|page pages IH]; intros l calls r; subst r.
  - cbn [gen_for_each]. rewrite gen_bind_ret. apply Hk.
  - cbn [gen_for_each]. rewrite gen_bind_assoc.
    destruct (slim_page_step l calls page)
      as [(e & ->) | [(l' & ->) | [(b & l' & Hc & Hb & ->)
         | [(f & b & l' & Hc & Hf & Hb & ->) | (f & b & Hc & Hf & Hb & ->)]]]].
    + cbn. constructor.
    + rewrite gen_bind_ok with (a := (l', calls)) by reflexivity. cbn [fst snd app].
      apply IH.
    + rewrite gen_bind_ok with (a := (l', calls)) by reflexivity. cbn [fst snd app].
      apply slim_slice; auto.
    + rewrite gen_bind_ok with (a := (l', S calls)) by reflexivity.
      cbn [fst snd app]. eapply slim_slice_checked; eauto.
    + cbn. eapply slim_slice_stopped; eauto.
Qed.

(** Every run of the slim fetch has the shape of [slim_run]. *)
Lemma slim_trace_shape (start end_ : option Z) :
  let r := retrieve_all_slim_documents self start end_ callback in
  slim_run callback 0 (fst r) (snd r).
Proof.
  intro r. subst r. unfold retrieve_all_slim_documents.
  rewrite gen_bind_lift. destruct (confluence_client self) as [client|e];
    [|constructor].
  unfold gen_for. rewrite gen_bind_assoc.
  apply slim_loop_shape. intros [l c] calls.
  destruct (failure _).
  - rewrite gen_bind_lift. constructor.
  - rewrite gen_bind_ret. constructor.
Qed.

Lemma slim_attachment_app (pr pk : json) (l1 l2 : list SlimDocument.t) (a : json) :
  slim_attachment self pr pk (l1 ++ l2) a
  = (r <- slim_attachment self pr pk l2 a ;; Ok (l1 ++ r)).
Proof.
  unfold slim_attachment.
  destruct (validate_attachment_filetype a) as [[|]|e]; cbn; try reflexivity.
  destruct (attachment_perm_sync_data pr pk a) as [payload|e]; cbn; [|reflexivity].
  destruct (slim_document self a payload) as [doc|e]; cbn; [|reflexivity].
  now rewrite app_assoc.
Qed.

Lemma slim_attachments_app (pr pk : json) (attachments : list json) :
  forall l1 l2,
    for_each attachments (slim_attachment self pr pk) (l1 ++ l2)
    = (r <- for_each attachments (slim_attachment self pr pk) l2 ;; Ok (l1 ++ r)).
Proof.
  induction attachments as [|a attachments IH]; intros l1 l2; cbn [for_each].
  - reflexivity.
  - rewrite slim_attachment_app.
    destruct (slim_attachment self pr pk l2 a) as [r|e]; cbn; [apply IH | reflexivity].
Qed.

Lemma slim_attachments_flat (pr pk : json) (attachments : list json) :
  forall l l',
    for_each attachments (slim_attachment self pr pk) l = Ok l' ->
    l' = l ++ flat_map (attachment_slim self pr pk) attachments.
Proof.
  induction attachments as [|a attachments IH]; intros l l'; cbn [for_each flat_map].
  - intro H. inversion H. now rewrite app_nil_r.
  - rewrite <- (app_nil_r l) at 1. rewrite slim_attachment_app.
    unfold attachment_slim at 1.
    destruct (slim_attachment self pr pk [] a) as [r|e]; cbn; [|discriminate].
    intro H. apply IH in H. now rewrite H, app_assoc.
Qed.

Lemma slim_page_records_app (l : list SlimDocument.t) (page : json) :
  slim_page_records self l page = (r <- slim_page_records self [] page ;; Ok (l ++ r)).
Proof.
  unfold slim_page_records.
  destruct (page_perm_sync_data page) as [[[data pr] pk]|e]; cbn; [|reflexivity].
  destruct (slim_document self page data) as [doc|e]; cbn; [|reflexivity].
  destruct (getitem page "id") as [i|e]; cbn; [|reflexivity].
  destruct (as_str i) as [i'|e]; cbn; [|reflexivity].
  destruct (confluence_client self) as [client|e]; cbn; [|reflexivity].
  unfold for_stream. rewrite slim_attachments_app.
  destruct (for_each _ _ [doc]) as [r|e]; cbn; [|reflexivity].
  destruct (failure _); reflexivity.
Qed.

Lemma tracks_slim_page (l : list SlimDocument.t) (calls : nat) (page : json) :
  tracks fst (l ++ page_slim_documents self page)
         (slim_page self callback (l, calls) page).
Proof.
  unfold slim_page. rewrite (slim_page_records_app l page), gen_bind_lift.
  unfold page_slim_documents.
  destruct (slim_page_records self [] page) as [r|e]; cbn [bind]; [|apply tracks_raise].
  unfold heartbeat, yield.
  destruct (Nat.ltb _ _); [|reflexivity].
  destruct callback as [should_stop|]; [destruct (should_stop calls)|];
    unfold tracks, emitted, gen_bind, emit, lift, gen_ret;
    cbn [fst snd app batches List.concat]; rewrite ?app_nil_r.
  - exists (skipn _SLIM_DOC_BATCH_SIZE (l ++ r)). apply firstn_skipn.
  - apply firstn_skipn.
  - apply firstn_skipn.
Qed.

(** What the slim fetch hands out is the beginning of the slim
    documents of the pages, and all of them when it returns. *)
Lemma slim_emitted (client : OnyxConfluence) (start end_ : option Z) :
  _confluence_client self = Some client ->
  let r := retrieve_all_slim_documents self start end_ callback in
  exists rest,
    emitted (fst r) ++ rest
    = flat_map (page_slim_documents self) (items (slim_pages self client))
    /\ (snd r = Ok tt -> rest = []).
Proof.
  intros Hc r. subst r. unfold retrieve_all_slim_documents, confluence_client.
  rewrite Hc, gen_bind_lift. fold (slim_pages self client).
  match goal with |- context [gen_bind ?m ?f] => set (loop := m); set (k := f) end.
  assert (tracks fst (flat_map (page_slim_documents self) (items (slim_pages self client)))
            loop) as T.
  { apply (tracks_for fst (page_slim_documents self) (slim_page self callback)
             (slim_pages self client)
             (fun s x => match s with (l, c) => tracks_slim_page l c x end) ([], O)). }
  unfold tracks in T. destruct (snd loop) as [[l c]|e] eqn:E.
  - rewrite (gen_bind_ok _ _ _ E). subst k. cbn [fst snd yield emit].
    exists []. split; [|reflexivity].
    rewrite app_nil_r, emitted_app, <- T. unfold emitted at 2.
    cbn [batches List.concat fst]. now rewrite app_nil_r.
  - rewrite (gen_bind_raise _ _ _ E). cbn [fst snd]. destruct T as [rest Hrest].
    exists rest. split; [exact Hrest | discriminate].
Qed.

Lemma slim_page_records_ok (client : OnyxConfluence) (page : json)
    (l : list SlimDocument.t) :
  _confluence_client self = Some client ->
  slim_page_records self [] page = Ok l ->
  exists data pr pk doc,
    page_perm_sync_data page = Ok (data, pr, pk)
    /\ slim_document self page data = Ok doc
    /\ l = doc :: flat_map (attachment_slim self pr pk)
                    (items (slim_attachments_of self client page)).
Proof.
  intros Hc. unfold slim_page_records, slim_attachments_of, confluence_client.
  rewrite Hc.
  destruct (page_perm_sync_data page) as [[[data pr] pk]|e] eqn:E1; cbn [bind];
    [|discriminate].
  destruct (slim_document self page data) as [doc|e] eqn:E2; cbn [bind]; [|discriminate].
  destruct (getitem page "id") as [i|e]; cbn [bind]; [|discriminate].
  destruct (as_str i) as [i'|e]; cbn [bind]; [|discriminate].
  unfold for_stream.
  destruct (for_each _ _ _) as [r|e] eqn:E; cbn [bind]; [|discriminate].
  destruct (failure _); [discriminate|]. intro H. inversion H. subst r.
  apply slim_attachments_flat in E. exists data, pr, pk, doc.
  split; [reflexivity|]. split; [exact E2 | exact E].
Qed.






End SlimFetch.

(* ================================================================= *)
(** ** The heartbeat and the last batch of the slim fetch *)

Section SlimHeartbeat.

Context {collaborators : Collaborators}.

Lemma stop_checks_none {B : Type} (tr : list (event B)) :
  Forall (fun e => is_should_stop e = false) tr -> stop_checks tr = 0%nat.
Proof.
  unfold stop_checks. induction 1 as [|e tr He _ IH]; simpl; [reflexivity|].
  now rewrite He.
Qed.

Lemma slim_run_no_callback (calls : nat) tr r :
  slim_run None calls tr r -> stop_checks tr = 0%nat.
Proof.
  induction 1; try reflexivity; try discriminate.
  unfold stop_checks in *. simpl. assumption.
Qed.

Lemma slim_run_checks callback (calls : nat) tr r (should_stop : IndexingHeartbeatInterface) :
  slim_run callback calls tr r ->
  callback = Some should_stop ->
  (stop_checks tr + match r with Ok _ => 1 | Raise _ => 0 end
   = List.length (batches tr))%nat.
Proof.
  induction 1; intro Hc; try reflexivity; try congruence.
  unfold stop_checks in *. simpl. rewrite <- IHslim_run by assumption. reflexivity.
Qed.

Lemma slim_run_stop callback (calls : nat) tr r :
  slim_run callback calls tr r ->
  forall pre post, tr = pre ++ ShouldStop true :: post ->
                   post = [] /\ r = Raise stop_signal.
Proof.
  induction 1; intros pre post E.
  - destruct pre as [|? [|? ?]]; discriminate.
  - destruct pre; discriminate.
  - destruct pre as [|e pre]; [discriminate|]. inversion E. eauto.
  - destruct pre as [|e1 [|e2 [|e3 pre]]]; try discriminate. inversion E. eauto.
  - destruct pre as [|e1 [|e2 [|e3 pre]]]; try discriminate.
    inversion E. auto.
Qed.

Lemma slim_run_returns callback (calls : nat) tr :
  slim_run callback calls tr (Ok tt) ->
  exists pre remaining, tr = pre ++ [Yield remaining].
Proof.
  remember (Ok tt) as r eqn:Hr. induction 1; try discriminate.
  - now exists [], remaining.
  - destruct (IHslim_run Hr) as (pre & rem & ->). now exists (Yield b :: pre), rem.
  - destruct (IHslim_run Hr) as (pre & rem & ->).
    now exists (Yield b :: ShouldStop false
                :: Progress "retrieve_all_slim_documents" 1 :: pre), rem.
Qed.

Variable self : ConfluenceConnector.

Lemma collect_no_check (doc : option Document.t) (doc_batch : list Document.t) :
  gen_spec (fun e => is_should_stop e = false) (fun _ => True)
           (collect self doc doc_batch).
Proof.
  unfold collect. destruct (_ <=? _).
  - split; simpl; auto.
  - now apply gen_spec_ret.
Qed.

(** The full fetch hands out batches and does nothing else. *)
Lemma full_fetch_no_check (start end_ : option Z) :
  Forall (fun e => is_should_stop e = false)
         (fst (_fetch_document_batches self start end_)).
Proof.
  cut (gen_spec (fun e : event (list Document.t) => is_should_stop e = false)
         (fun _ : unit => True) (_fetch_document_batches self start end_)).
  { now intros [H _]. }
  unfold _fetch_document_batches.
  apply gen_spec_bind with (Q := fun _ => True); [now apply gen_spec_lift|]. intros q _.
  apply gen_spec_bind with (Q := fun _ => True); [now apply gen_spec_lift|]. intros c _.
  apply gen_spec_bind with (Q := fun _ => True).
  - apply gen_spec_for; [|exact I]. intros [b ids] page _. unfold fetch_page.
    apply gen_spec_bind with (Q := fun _ => True); [now apply gen_spec_lift|]. intros i _.
    apply gen_spec_bind with (Q := fun _ => True); [now apply gen_spec_lift|]. intros i' _.
    apply gen_spec_bind with (Q := fun _ => True); [now apply gen_spec_lift|]. intros d _.
    apply gen_spec_bind with (Q := fun _ => True); [apply collect_no_check|].
    intros b' _. now apply gen_spec_ret.
  - intros [b ids] _.
    apply gen_spec_bind with (Q := fun _ => True).
    + apply gen_spec_for_each; [|exact I]. intros b' i _. unfold fetch_attachments.
      apply gen_spec_bind with (Q := fun _ => True); [now apply gen_spec_lift|].
      intros c' _. apply gen_spec_for; [|exact I]. intros b'' a _. unfold fetch_attachment.
      apply gen_spec_bind with (Q := fun _ => True); [now apply gen_spec_lift|].
      intros d _. apply collect_no_check.
    + intros b' _. destruct b'; [now apply gen_spec_ret|]. split; simpl; auto.
Qed.

(** C8, as the code has it. With a heartbeat, the stop check is made
    once after each full slice handed out, and not once per page: the run
    has the shape of [slim_run], the number of checks is the number of
    batches handed out inside the loop, and a check that answers stop is
    the last event of a run that ends with the stop signal. The full
    fetch makes no check. *)
Theorem stop_check_after_each_slice (start end_ : option Z)
    (should_stop : IndexingHeartbeatInterface) :
  let slim := retrieve_all_slim_documents self start end_ (Some should_stop) in
  slim_run (Some should_stop) 0 (fst slim) (snd slim)
  /\ (stop_checks (fst slim) + match snd slim with Ok _ => 1 | Raise _ => 0 end
      = List.length (batches (fst slim)))%nat
  /\ (forall pre post, fst slim = pre ++ ShouldStop true :: post ->
                       post = [] /\ snd slim = Raise stop_signal)
  /\ stop_checks (fst (_fetch_document_batches self start end_)) = 0%nat.
Proof.
  intro slim. pose proof (slim_trace_shape self (Some should_stop) start end_) as H.
  cbv zeta in H. fold slim in H. split; [exact H|]. split; [|split].
  - now apply (slim_run_checks _ _ _ _ should_stop H).
  - now apply (slim_run_stop _ _ _ _ H).
  - apply stop_checks_none, full_fetch_no_check.
Qed.

Variable callback : option IndexingHeartbeatInterface.

Lemma slim_page_returns (l : list SlimDocument.t) (calls : nat) (page : json) :
  never_stops callback ->
  (exists r, slim_page_records self [] page = Ok r) ->
  exists s, snd (slim_page self callback (l, calls) page) = Ok s.
Proof.
  intros Hn [r Hr]. unfold slim_page.
  rewrite (slim_page_records_app self l page), Hr, gen_bind_lift. cbn [bind].
  destruct (Nat.ltb _ _); [|eexists; reflexivity].
  unfold yield, heartbeat. unfold never_stops in Hn.
  destruct callback as [should_stop|].
  - rewrite (Hn should_stop eq_refl calls). eexists. reflexivity.
  - eexists. reflexivity.
Qed.

Lemma slim_loop_returns (pages : list json) :
  never_stops callback ->
  (forall page, In page pages -> exists r, slim_page_records self [] page = Ok r) ->
  forall l calls,
    exists s, snd (gen_for_each pages (slim_page self callback) (l, calls)) = Ok s.
Proof.
  intros Hn. induction pages as [|page pages IH]; intros Hp l calls; cbn [gen_for_each].
  - eexists. reflexivity.
  - destruct (slim_page_returns l calls page Hn (Hp page (or_introl eq_refl)))
      as [[l' c'] Hs].
    rewrite (gen_bind_ok _ _ _ Hs). cbn [snd]. apply IH.
    intros p Hin. apply Hp. now right.
Qed.

(** C9. The slim fetch ends with the batch of whatever is left, empty or
    not: a run that returns has handed out that batch last, and before it
    and in it all the slim documents of the pages; a query without pages
    gives the single empty batch; and the run does return when the page
    stream does not fail, every page yields its records and the heartbeat
    never asks to stop. *)
Theorem slim_last_batch_unconditional (client : OnyxConfluence) (start end_ : option Z) :
  _confluence_client self = Some client ->
  let r := retrieve_all_slim_documents self start end_ callback in
  (snd r = Ok tt ->
   exists pre remaining,
     fst r = pre ++ [Yield remaining]
     /\ emitted pre ++ remaining
        = flat_map (page_slim_documents self) (items (slim_pages self client)))
  /\ (slim_pages self client = {| items := []; failure := None |} ->
      r = ([Yield []], Ok tt))
  /\ (failure (slim_pages self client) = None ->
      (forall page, In page (items (slim_pages self client)) ->
                    exists l, slim_page_records self [] page = Ok l) ->
      never_stops callback ->
      snd r = Ok tt).
Proof.
  intros Hc r. split; [|split].
  - intro Hok. pose proof (slim_trace_shape self callback start end_) as H.
    cbv zeta in H. fold r in H. rewrite Hok in H.
    destruct (slim_run_returns _ _ _ H) as (pre & remaining & Hpre).
    exists pre, remaining. split; [exact Hpre|].
    destruct (slim_emitted self callback client start end_ Hc) as (rest & Hrest & Hnil).
    fold r in Hrest, Hnil. rewrite (Hnil Hok), app_nil_r, Hpre, emitted_app in Hrest.
    rewrite <- Hrest. unfold emitted at 3. simpl. now rewrite app_nil_r.
  - intro Hempty. subst r. unfold retrieve_all_slim_documents, confluence_client.
    rewrite Hc, gen_bind_lift. fold (slim_pages self client). rewrite Hempty. reflexivity.
  - intros Hf Hp Hn. subst r. unfold retrieve_all_slim_documents, confluence_client.
    rewrite Hc, gen_bind_lift. fold (slim_pages self client). unfold gen_for.
    destruct (slim_loop_returns _ Hn Hp [] O) as [[l c] Hs].
    rewrite Hf, gen_bind_assoc, (gen_bind_ok _ _ _ Hs), gen_bind_ret. reflexivity.
Qed.

End SlimHeartbeat.

(* ================================================================= *)
(** ** Further properties of the connector *)

Lemma rstrip_decompose (c : ascii) (s : string) :
  exists n, s = rstrip c s +++ replicate n c.
Proof.
  induction s as [|a s [n IH]]; simpl.
  - now exists O.
  - destruct (rstrip c s) as [|b kept] eqn:E.
    + simpl in IH. destruct (Ascii.eqb_spec a c) as [->|Hne].
      * exists (S n). simpl. now rewrite <- IH.
      * exists n. simpl. now rewrite <- IH.
    + exists n. simpl. simpl in IH. now rewrite <- IH.
Qed.

Lemma append_is_empty (s t : string) : s +++ t = EmptyString -> t = EmptyString.
Proof. destruct s; simpl; [auto | discriminate]. Qed.

Lemma rstrip_no_trailing (c : ascii) (s : string) :
  forall s', rstrip c s <> s' +++ String c EmptyString.
Proof.
  induction s as [|a s IH]; intros s' H; simpl in H.
  - symmetry in H. apply append_is_empty in H. discriminate.
  - destruct (rstrip c s) as [|b kept] eqn:E.
    + destruct (Ascii.eqb_spec a c) as [->|Hne].
      * symmetry in H. apply append_is_empty in H. discriminate.
      * destruct s' as [|a' s']; simpl in H.
        -- inversion H. congruence.
        -- inversion H. symmetry in H2. apply append_is_empty in H2. discriminate.
    + destruct s' as [|a' s']; simpl in H.
      * inversion H.
      * inversion H. now apply (IH s').
Qed.

Lemma hex_digit_safe (c : ascii) :
  quote_safe (hex_digit (N.div (N_of_ascii c) 16)) = true
  /\ quote_safe (hex_digit (N.modulo (N_of_ascii c) 16)) = true.
Proof.
  destruct c as [[] [] [] [] [] [] [] []]; vm_compute; split; reflexivity.
Qed.

(** Every character of a quoted string is a never-quoted character or
    belongs to a percent escape. *)
Lemma quote_characters (s : string) :
  Forall (fun c => quote_safe c = true \/ c = "%"%char) (list_ascii_of_string (quote s)).
Proof.
  induction s as [|c s IH]; simpl; [constructor|].
  destruct (quote_safe c) eqn:E; simpl.
  - constructor; auto.
  - destruct (hex_digit_safe c) as [H1 H2].
    constructor; [now right|]. constructor; [now left|]. constructor; [now left|]. exact IH.
Qed.

Lemma quote_of_safe (s : string) :
  Forall (fun c => quote_safe c = true) (list_ascii_of_string s) -> quote s = s.
Proof.
  induction s as [|c s IH]; simpl; [reflexivity|].
  intro H. inversion H as [|? ? Hc Hs]. subst. rewrite Hc, IH by assumption. reflexivity.
Qed.

(** Days from 1970-01-01 up to 9999-12-31 fall in the years 1 to 9999. *)
Lemma civil_year_range (days : Z) :
  0 <= days < 2932897 ->
  1 <= fst (fst (civil_from_days days)) <= 9999.
Proof.
  intro H. unfold civil_from_days. cbv zeta.
  set (z := days + 719468).
  assert (4 <= z / 146097 <= 24) as He by (subst z; Z.div_mod_to_equations; lia).
  set (era := z / 146097) in *.
  assert (0 <= z - era * 146097 < 146097
          /\ (era = 24 -> z - era * 146097 <= 146036)) as [Hdoe Hlast]
    by (subst era z; Z.div_mod_to_equations; lia).
  set (doe := z - era * 146097) in *.
  assert (0 <= (doe - doe / 1460 + doe / 36524 - doe / 146096) / 365 <= 399) as Hyoe
    by (Z.div_mod_to_equations; lia).
  set (yoe := (doe - doe / 1460 + doe / 36524 - doe / 146096) / 365) in *.
  set (doy := doe - (365 * yoe + yoe / 4 - yoe / 100)).
  set (mp := (5 * doy + 2) / 153).
  assert (era = 24 -> yoe = 399 -> 0 <= mp < 10) as Hend.
  { intros He24 Hy. specialize (Hlast He24). subst mp doy. rewrite Hy.
    change (399 / 4) with 99. change (399 / 100) with 3.
    subst yoe. Z.div_mod_to_equations. lia. }
  cbn [fst].
  destruct (Z.ltb_spec mp 10) as [Hmp|Hmp].
  - destruct (Z.leb_spec (mp + 3) 2); lia.
  - destruct (Z.leb_spec (mp - 9) 2); lia.
Qed.

(** A local time from 1970 up to the end of 9999 has a stamp. *)
Lemma strftime_minute_exists (tz t : Z) :
  0 <= t + tz < 253402300800 -> exists stamp, strftime_minute tz t = Ok stamp.
Proof.
  intro H. unfold strftime_minute.
  assert (0 <= (t + tz) / 86400 < 2932897) as Hd by (Z.div_mod_to_equations; lia).
  pose proof (civil_year_range _ Hd) as Hy.
  destruct (civil_from_days ((t + tz) / 86400)) as [[y m] d]. cbn [fst] in Hy.
  replace (1 <=? y) with true by (symmetry; apply Z.leb_le; lia).
  replace (y <=? 9999) with true by (symmetry; apply Z.leb_le; lia).
  eexists. reflexivity.
Qed.

Section FurtherProperties.
Context {collaborators : Collaborators}.

Theorem wiki_base_without_trailing_slash wiki cloud space page_id rec cql bs cof labels tz self :
  __init__ wiki cloud space page_id rec cql bs cof labels tz = Ok self ->
  (exists n, wiki = wiki_base self +++ replicate n "/")
  /\ forall s, wiki_base self <> s +++ "/".
Proof.
  intro H. rewrite (init_wiki_base _ _ _ _ _ _ _ _ _ _ _ H). split.
  - apply rstrip_decompose.
  - apply rstrip_no_trailing.
Qed.

(** With only a space configured, the space sits between its quotes in
    URL-escaped form: no apostrophe and no blank of the space name
    reaches the query, and a name made of never-quoted characters is kept as
    it is. *)
Theorem space_clause_is_escaped wiki cloud space rec bs cof labels tz self :
  __init__ wiki cloud space "" rec None bs cof labels tz = Ok self ->
  space <> EmptyString ->
  exists escaped,
    base_cql_page_query self = "type=page and space='" +++ escaped +++ "'"
    /\ Forall (fun c => c <> "'"%char /\ c <> " "%char)
              (list_ascii_of_string escaped)
    /\ (Forall (fun c => quote_safe c = true) (list_ascii_of_string space) ->
        escaped = space).
Proof.
  intros H Hs. exists (quote space). split; [|split].
  - rewrite (init_base_query _ _ _ _ _ _ _ _ _ _ _ H). simpl.
    apply nonempty_true in Hs. now rewrite Hs.
  - eapply Forall_impl; [|apply quote_characters].
    intros c [Hc | ->]; [|repeat split; discriminate].
    repeat split; intros ->; discriminate.
  - apply quote_of_safe.
Qed.

(** Until credentials are attached nothing is fetched: a load and a slim
    fetch hand out no batch and raise the missing-credentials error, a poll
    hands out no batch and raises, and so does the validation. *)
Theorem fresh_connector_needs_credentials wiki cloud space page_id rec cql bs cof labels tz self :
  __init__ wiki cloud space page_id rec cql bs cof labels tz = Ok self ->
  load_from_state self = ([], Raise (ConnectorMissingCredentialError "Confluence"))
  /\ (forall start end_ callback,
        retrieve_all_slim_documents self start end_ callback
        = ([], Raise (ConnectorMissingCredentialError "Confluence")))
  /\ (forall start end_,
        fst (poll_source self start end_) = []
        /\ exists e, snd (poll_source self start end_) = Raise e)
  /\ validate_connector_settings self
     = Raise (ConnectorMissingCredentialError "Confluence credentials not loaded.").
Proof.
  unfold __init__. destruct (_ && _); [|discriminate]. intro H. inversion H. subst. clear H.
  split; [reflexivity|]. split; [reflexivity|]. split; [|reflexivity].
  intros start end_. unfold poll_source, _fetch_document_batches.
  rewrite gen_bind_lift. destruct (_construct_page_query _ start end_) as [q|e].
  - simpl. split; [reflexivity | eexists; reflexivity].
  - simpl. split; [reflexivity | eexists; reflexivity].
Qed.

Lemma batches_nonempty_of_full (n : Z) (tr : list (event (list Document.t))) :
  1 <= n -> Forall (full_batch n) tr -> Forall (fun b => b <> []) (batches tr).
Proof.
  intros Hn H. apply full_batches_exact in H.
  eapply Forall_impl; [|exact H]. intros b Hb ->. simpl in Hb. lia.
Qed.

(** With a batch size of at least one the full fetch never hands out an
    empty batch. *)
Theorem full_fetch_no_empty_batch (self : ConfluenceConnector) (start end_ : option Z) :
  1 <= batch_size self ->
  Forall (fun b => b <> []) (batches (fst (_fetch_document_batches self start end_))).
Proof.
  intro Hbs.
  destruct (fetch_trace_shape self Hbs start end_) as (full & last & -> & Hfull & Hlast).
  rewrite batches_app. apply Forall_app. split.
  - now apply (batches_nonempty_of_full (batch_size self)).
  - destruct Hlast as [-> | (b & -> & Hb & _)]; simpl; [constructor|].
    constructor; [exact Hb | constructor].
Qed.

Lemma collect_flushes (self : ConfluenceConnector) (doc : option Document.t) :
  batch_size self <= 0 ->
  gen_spec flushed (fun b => b = []) (collect self doc []).
Proof.
  intro Hbs. unfold collect.
  set (b := match doc with Some d => [] ++ [d] | None => [] end).
  assert (List.length b <= 1)%nat as Hb by (subst b; destruct doc; simpl; lia).
  destruct (Z.leb_spec (batch_size self) (Z.of_nat (List.length b))); [|lia].
  split; simpl.
  - constructor; [exact Hb | constructor].
  - intros a E. now inversion E.
Qed.

(** With a batch size of zero or less every record is flushed at once:
    each batch holds at most one document. *)
Theorem full_fetch_flushes_each_record (self : ConfluenceConnector) (start end_ : option Z) :
  batch_size self <= 0 ->
  Forall (fun b => (List.length b <= 1)%nat)
         (batches (fst (_fetch_document_batches self start end_))).
Proof.
  intro Hbs.
  cut (gen_spec flushed (fun _ : unit => True) (_fetch_document_batches self start end_)).
  { intros [H _]. induction H as [|e tr He _ IH]; simpl; [constructor|].
    destruct e; simpl in He; try contradiction. now constructor. }
  unfold _fetch_document_batches.
  apply gen_spec_bind with (Q := fun _ => True); [now apply gen_spec_lift|]. intros q _.
  apply gen_spec_bind with (Q := fun _ => True); [now apply gen_spec_lift|]. intros c _.
  apply gen_spec_bind with (Q := fun s => fst s = []).
  - apply gen_spec_for; [|reflexivity]. intros [b ids] page Hb. simpl in Hb. subst b.
    unfold fetch_page.
    apply gen_spec_bind with (Q := fun _ => True); [now apply gen_spec_lift|]. intros i _.
    apply gen_spec_bind with (Q := fun _ => True); [now apply gen_spec_lift|]. intros i' _.
    apply gen_spec_bind with (Q := fun _ => True); [now apply gen_spec_lift|]. intros d _.
    apply gen_spec_bind with (Q := fun b => b = []); [now apply collect_flushes|].
    intros b' ->. now apply gen_spec_ret.
  - intros [b ids] Hb. simpl in Hb. subst b.
    apply gen_spec_bind with (Q := fun b => b = []).
    + apply gen_spec_for_each; [|reflexivity]. intros b' i ->. unfold fetch_attachments.
      apply gen_spec_bind with (Q := fun _ => True); [now apply gen_spec_lift|].
      intros c' _. apply gen_spec_for; [|reflexivity]. intros b'' a ->.
      unfold fetch_attachment.
      apply gen_spec_bind with (Q := fun _ => True); [now apply gen_spec_lift|].
      intros d _. now apply collect_flushes.
    + intros b' ->. now apply gen_spec_ret.
Qed.

Lemma as_str_ok (v : json) (s : string) : as_str v = Ok s -> v = JStr s.
Proof. destruct v; simpl; intro H; inversion H; reflexivity. Qed.

Ltac bind_ok H x E :=
  match type of H with
  | bind ?m _ = _ => destruct m as [x|] eqn:E; cbn [bind] in H; [|discriminate H]
  end.

(** A document that comes out of the conversion has as id the canonical
    URL of the record, a single section whose link is that id, the
    Confluence source tag and the name of the space as first metadata
    entry; only pages and attachments give one. *)
Theorem converted_document_shape (self : ConfluenceConnector) (record : json)
    (parent : option string) (d : Document.t) :
  _convert_object_to_document self record parent = Ok (Some d) ->
  exists links webui type space name text rest,
    getitem record "_links" = Ok links
    /\ getitem links "webui" = Ok (JStr webui)
    /\ getitem record "type" = Ok type
    /\ (eq_str type "page" = true \/ eq_str type "attachment" = true)
    /\ getitem record "space" = Ok space
    /\ getitem space "name" = Ok name
    /\ Document.id d = build_confluence_document_id (wiki_base self) webui (is_cloud self)
    /\ Document.sections d
       = [{| Document.link := Document.id d; Document.text := text |}]
    /\ Document.source d = CONFLUENCE
    /\ Document.metadata d = ("Wiki Space Name"%string, name) :: rest.
Proof.
  unfold _convert_object_to_document. intro H.
  bind_ok H links El. bind_ok H webui Ew. bind_ok H w Es. apply as_str_ok in Es. subst webui.
  bind_ok H type Et. bind_ok H object_text Eo.
  destruct object_text as [object_text|]; [|discriminate H].
  bind_ok H space Esp. bind_ok H name En. bind_ok H md Emd. bind_ok H labels Elb.
  bind_ok H results Er. bind_ok H label_dicts Eld. bind_ok H page_labels Epl.
  bind_ok H version Ev. bind_ok H when Ewh. bind_ok H last_modified Elm.
  bind_ok H by_ Eby. bind_ok H email Eem. bind_ok H title Eti.
  inversion H. subst d. clear H. cbn.
  exists links, w, type, space, name, object_text.
  exists (match page_labels with [] => [] | _ :: _ => [("labels"%string, JList page_labels)] end).
  repeat split; auto.
  - destruct (eq_str type "page"); [now left|]. right.
    destruct (eq_str type "attachment"); [reflexivity | discriminate Eo].
  - destruct page_labels; reflexivity.
Qed.

(** Records that are neither pages nor attachments, and attachments
    without extractable content, convert to no document and raise nothing,
    whatever other fields they lack. *)
Theorem unsupported_record_dropped (self : ConfluenceConnector) (record : json)
    (parent : option string) (links type : json) (webui : string) :
  getitem record "_links" = Ok links ->
  getitem links "webui" = Ok (JStr webui) ->
  getitem record "type" = Ok type ->
  eq_str type "page" = false ->
  (eq_str type "attachment" = false
   \/ exists client,
        _confluence_client self = Some client
        /\ attachment_to_content client record parent = Ok None) ->
  _convert_object_to_document self record parent = Ok None.
Proof.
  intros Hl Hw Ht Hp Hcase. unfold _convert_object_to_document.
  rewrite Hl. cbn [bind]. rewrite Hw. cbn [bind as_str]. rewrite Ht. cbn [bind].
  rewrite Hp. destruct Hcase as [Ha | (client & Hc & Hcontent)].
  - rewrite Ha. reflexivity.
  - destruct (eq_str type "attachment"); [|reflexivity].
    unfold confluence_client. rewrite Hc. cbn [bind]. rewrite Hcontent. reflexivity.
Qed.

Lemma join_empty_cons (p : string) (rest : list string) :
  join "" (p :: rest) = p +++ join "" rest.
Proof. destruct rest; simpl; [now rewrite append_empty_r | reflexivity]. Qed.

Lemma comment_loop (self : ConfluenceConnector) (client : OnyxConfluence)
    (comments : list json) (texts : list string) :
  _confluence_client self = Some client ->
  Forall2 (fun c t => extract_text_from_confluence_html client c [] = Ok t) comments texts ->
  forall acc,
    for_each comments
      (fun comment_string comment =>
         let comment_string := comment_string +++ nl +++ "Comment:" +++ nl in
         c <- confluence_client self ;;
         extracted <- extract_text_from_confluence_html c comment [] ;;
         Ok (comment_string +++ extracted))
      acc
    = Ok (acc +++ join "" (map (fun t => nl +++ "Comment:" +++ nl +++ t) texts)).
Proof.
  intros Hc H. induction H as [|c t comments texts Hct _ IH]; intro acc; cbn [for_each map].
  - simpl. now rewrite append_empty_r.
  - unfold confluence_client at 1. rewrite Hc. cbn [bind]. rewrite Hct. cbn [bind].
    rewrite IH, join_empty_cons, !append_assoc. reflexivity.
Qed.

(** The comment string of a page is made of the texts of its comments
    in the order the comment query returns them, each one after the marker
    line; without comments it is empty. *)
Theorem comment_string_in_order (self : ConfluenceConnector) (client : OnyxConfluence)
    (page_id : string) (texts : list string) :
  _confluence_client self = Some client ->
  let comments :=
    paginated_cql_retrieval client
      (("type=comment and container='" +++ page_id +++ "'") +++ cql_label_filter self)
      "body.storage.value" None in
  failure comments = None ->
  Forall2 (fun c t => extract_text_from_confluence_html client c [] = Ok t)
          (items comments) texts ->
  _get_comment_string_for_page_id self page_id
  = Ok (join "" (map (fun t => nl +++ "Comment:" +++ nl +++ t) texts)).
Proof.
  intros Hc comments Hf Ht. unfold _get_comment_string_for_page_id, confluence_client at 1.
  rewrite Hc. cbn [bind]. unfold for_stream.
  change (join "," _COMMENT_EXPANSION_FIELDS) with "body.storage.value"%string.
  fold comments. rewrite (comment_loop self client _ texts Hc Ht), Hf. reflexivity.
Qed.

Lemma slim_run_slices callback (calls : nat) tr r :
  slim_run callback calls tr r ->
  Forall (fun b => List.length b = _SLIM_DOC_BATCH_SIZE) (removelast (batches tr))
  /\ (forall e, r = Raise e ->
       Forall (fun b => List.length b = _SLIM_DOC_BATCH_SIZE) (batches tr)).
Proof.
  induction 1 as [calls remaining | calls e | calls b tr r Hc Hb Hrun [IH1 IH2]
                 | calls f b tr r Hc Hf Hb Hrun [IH1 IH2] | calls f b Hc Hf Hb].
  - split; [constructor | discriminate].
  - split; constructor.
  - cbn [batches]. split.
    + cbn [removelast]. destruct (batches tr); [constructor|]. now constructor.
    + intros e He. constructor; [exact Hb | now apply (IH2 e)].
  - cbn [batches]. split.
    + cbn [removelast]. destruct (batches tr); [constructor|]. now constructor.
    + intros e He. constructor; [exact Hb | now apply (IH2 e)].
  - cbn [batches]. split.
    + constructor.
    + intros e _. constructor; [exact Hb | constructor].
Qed.

(** Every batch of the slim fetch but the last holds exactly 5000
    records, and so does the last one of a run that raises. *)
Theorem slim_slices_are_full (self : ConfluenceConnector) (start end_ : option Z)
    (callback : option IndexingHeartbeatInterface) :
  let r := retrieve_all_slim_documents self start end_ callback in
  Forall (fun b => List.length b = _SLIM_DOC_BATCH_SIZE) (removelast (batches (fst r)))
  /\ (forall e, snd r = Raise e ->
       Forall (fun b => List.length b = _SLIM_DOC_BATCH_SIZE) (batches (fst r))).
Proof.
  intro r. apply (slim_run_slices callback 0). apply slim_trace_shape.
Qed.

(** The validation succeeds exactly when a client is attached and its
    probe returns a non-empty value whose results are not empty. *)
Theorem validate_succeeds_iff (self : ConfluenceConnector) :
  validate_connector_settings self = Ok tt
  <-> exists client spaces results,
        _confluence_client self = Some client
        /\ get_all_spaces client 1 = Ok spaces
        /\ truthy spaces = true
        /\ get spaces "results" = Ok results
        /\ truthy results = true.
Proof.
  unfold validate_connector_settings, no_spaces. split.
  - destruct (_confluence_client self) as [client|] eqn:Hc; [|discriminate].
    destruct (get_all_spaces client 1) as [spaces|e] eqn:Hg.
    + destruct (truthy spaces) eqn:Hs; cbn; [|discriminate].
      destruct (get spaces "results") as [results|e] eqn:Hr; cbn; [|discriminate].
      destruct (truthy results) eqn:Ht; cbn; [|discriminate].
      intros _. exists client, spaces, results. auto.
    + destruct e; try discriminate.
      destruct (is_status _ 401); [discriminate|].
      destruct (is_status _ 403); discriminate.
  - intros (client & spaces & results & -> & -> & Hs & Hr & Ht).
    rewrite Hs. cbn. rewrite Hr. cbn. rewrite Ht. reflexivity.
Qed.

(** Two whole-second start bounds that fall in the same minute of the
    configured zone build the same query, with the same stamp, for a zone
    within one day of UTC and bounds from 1970-01-02 up to 9999-12-30,
    where every stamp exists. *)
Theorem bounds_within_a_minute (self : ConfluenceConnector) (t t' : Z) (end_ : option Z) :
  -86400 < timezone self < 86400 ->
  86400 <= t < 253402214400 ->
  86400 <= t' < 253402214400 ->
  (t + timezone self) / 60 = (t' + timezone self) / 60 ->
  _construct_page_query self (Some t) end_ = _construct_page_query self (Some t') end_
  /\ exists stamp,
       strftime_minute (timezone self) t = Ok stamp
       /\ strftime_minute (timezone self) t' = Ok stamp.
Proof.
  intros Hz Ht Ht' Hm. split.
  - unfold _construct_page_query, given.
    destruct (Z.eqb_spec t 0); [lia|].
    destruct (Z.eqb_spec t' 0); [lia|].
    now rewrite (strftime_minute_precision _ _ _ Hm).
  - destruct (strftime_minute_exists (timezone self) t) as [stamp Hs]; [lia|].
    exists stamp. split; [exact Hs|].
    now rewrite <- (strftime_minute_precision _ _ _ Hm).
Qed.

(** What can go wrong with the payload of a page: only a record that is
    no dictionary, or whose space entry is there and is no dictionary. *)
Theorem page_payload_error (page : json) (e : exn) :
  page_perm_sync_data page = Raise e ->
  e = AttributeError
  /\ ((forall d, page <> JDict d)
      \/ exists d v, page = JDict d /\ dict_get d "space" = Some v
                      /\ forall fields, v <> JDict fields).
Proof.
  unfold page_perm_sync_data, space_key_of, get, get_default.
  destruct page as [| | | | |d]; cbn; try (intro H; inversion H; split;
    [reflexivity | left; intros d; discriminate]).
  destruct (dict_get d "restrictions"); cbn;
    (destruct (dict_get d "space") as [v|] eqn:Es; cbn;
     [destruct v as [| | | | |fields]; cbn;
        try (intro H; inversion H; split;
             [reflexivity | right; exists d; eexists; repeat split; eauto; discriminate]);
        destruct (dict_get fields "key"); cbn; destruct (dict_get d "ancestors"); cbn;
        discriminate
     | destruct (dict_get d "ancestors"); cbn; discriminate]).
Qed.

Lemma gen_for_each_returns {B A S : Type} (body : S -> A -> gen B S) (xs : list A) :
  (forall s x, In x xs -> exists s', snd (body s x) = Ok s') ->
  forall s, exists s', snd (gen_for_each xs body s) = Ok s'.
Proof.
  induction xs as [|x xs IH]; intros Hbody s; cbn [gen_for_each].
  - eexists. reflexivity.
  - destruct (Hbody s x (or_introl eq_refl)) as [s1 H1].
    rewrite (gen_bind_ok _ _ _ H1). cbn [snd]. apply IH.
    intros s2 y Hy. apply Hbody. now right.
Qed.

Lemma collect_returns (self : ConfluenceConnector) (doc : option Document.t)
    (doc_batch : list Document.t) :
  exists b, snd (collect self doc doc_batch) = Ok b.
Proof. unfold collect. destruct (_ <=? _); eexists; reflexivity. Qed.

(** The full fetch returns when nothing it depends on fails: the page
    query can be built, no stream of the client fails, every page has a
    string id, and every page and attachment converts without raising. *)
Theorem full_fetch_returns (self : ConfluenceConnector) (client : OnyxConfluence)
    (start end_ : option Z) (page_query : string) :
  _confluence_client self = Some client ->
  _construct_page_query self start end_ = Ok page_query ->
  let pages :=
    paginated_cql_retrieval client page_query (join "," _PAGE_EXPANSION_FIELDS)
      (Some (batch_size self)) in
  failure pages = None ->
  (forall page, In page (items pages) ->
     (exists i, getitem page "id" = Ok (JStr i))
     /\ exists d, _convert_object_to_document self page None = Ok d) ->
  (forall i, In i (page_ids (items pages)) ->
     failure (attachments_of self client i) = None
     /\ forall a, In a (items (attachments_of self client i)) ->
                  exists d, _convert_object_to_document self a (Some i) = Ok d) ->
  snd (_fetch_document_batches self start end_) = Ok tt.
Proof.
  intros Hc Hq pages Hf Hpages Hatts. unfold _fetch_document_batches.
  rewrite Hq, gen_bind_lift. unfold confluence_client. rewrite Hc, gen_bind_lift.
  fold pages. unfold gen_for. rewrite Hf.
  destruct (gen_for_each_returns (fetch_page self) (items pages)) with (s := ([] : list Document.t, [] : list string))
    as [[doc_batch ids] H1].
  { intros [b ids] page Hin. destruct (Hpages page Hin) as [[i Hi] [d Hd]].
    unfold fetch_page. rewrite Hi, gen_bind_lift. cbn [as_str]. rewrite gen_bind_lift.
    rewrite Hd, gen_bind_lift. destruct (collect_returns self d b) as [b' Hb'].
    rewrite (gen_bind_ok _ _ _ Hb'). eexists. reflexivity. }
  pose proof (fetch_page_ids self _ _ _ H1) as Hids. cbn [snd app] in Hids. subst ids.
  rewrite gen_bind_assoc, (gen_bind_ok _ _ _ H1). cbn [snd]. rewrite gen_bind_ret.
  destruct (gen_for_each_returns (fetch_attachments self) (page_ids (items pages)))
    with (s := doc_batch) as [b2 H2].
  { intros b i Hin. destruct (Hatts i Hin) as [Hfa Ha].
    unfold fetch_attachments, confluence_client. rewrite Hc, gen_bind_lift.
    fold (attachments_of self client i). unfold gen_for. rewrite Hfa.
    destruct (gen_for_each_returns (fetch_attachment self i)
                (items (attachments_of self client i))) with (s := b) as [b' Hb'].
    { intros b0 a Hina. destruct (Ha a Hina) as [d Hd].
      unfold fetch_attachment. rewrite Hd, gen_bind_lift. apply collect_returns. }
    rewrite (gen_bind_ok _ _ _ Hb'). eexists. reflexivity. }
  rewrite (gen_bind_ok _ _ _ H2). cbn [snd]. destruct b2; reflexivity.
Qed.

(** A slim fetch that returns has handed out, batch after batch, the
    records of the pages in the order of the page query: for each page its
    own record first, then the records of its indexable attachments in the
    order of its attachment query. *)
Theorem slim_records_in_order (self : ConfluenceConnector) (client : OnyxConfluence)
    (start end_ : option Z) (callback : option IndexingHeartbeatInterface) :
  _confluence_client self = Some client ->
  snd (retrieve_all_slim_documents self start end_ callback) = Ok tt ->
  emitted (fst (retrieve_all_slim_documents self start end_ callback))
  = flat_map (page_slim_documents self) (items (slim_pages self client))
  /\ forall page l,
       slim_page_records self [] page = Ok l ->
       page_slim_documents self page = l
       /\ exists data pr pk doc,
            page_perm_sync_data page = Ok (data, pr, pk)
            /\ slim_document self page data = Ok doc
            /\ l = doc :: flat_map (attachment_slim self pr pk)
                            (items (slim_attachments_of self client page)).
Proof.
  intros Hc Hok. split.
  - destruct (slim_emitted self callback client start end_ Hc) as (rest & Hrest & Hnil).
    rewrite (Hnil Hok), app_nil_r in Hrest. exact Hrest.
  - intros page l Hl. split.
    + unfold page_slim_documents. now rewrite Hl.
    + now apply slim_page_records_ok.
Qed.

(** The constructor returns a connector exactly when the offset of the
    zone is strictly within one day either way; the connector keeps the
    batch size, the flags and the offset it was given and has no client.
    With any other offset the constructor raises. *)
Theorem init_succeeds_iff wiki cloud space page_id rec cql bs cof labels tz :
  (-86400 < tz < 86400 ->
   exists self,
     __init__ wiki cloud space page_id rec cql bs cof labels tz = Ok self
     /\ batch_size self = bs /\ continue_on_failure self = cof /\ is_cloud self = cloud
     /\ timezone self = tz /\ _confluence_client self = None)
  /\ (~ (-86400 < tz < 86400) ->
      forall self, __init__ wiki cloud space page_id rec cql bs cof labels tz <> Ok self).
Proof.
  unfold __init__. split; intro H.
  - replace (-86400 <? tz) with true by (symmetry; apply Z.ltb_lt; lia).
    replace (tz <? 86400) with true by (symmetry; apply Z.ltb_lt; lia).
    eexists. split; [reflexivity|]. repeat split.
  - intro self.
    destruct (Z.ltb_spec (-86400) tz); destruct (Z.ltb_spec tz 86400); cbn [andb];
      try discriminate. lia.
Qed.

(** A record without its links raises the key error in both paths, and
    an attachment whose content was extracted but that has no space entry
    raises the key error for the space. *)
Theorem missing_required_keys (self : ConfluenceConnector) (fields : list (string * json))
    (parent : option string) (payload : json) :
  (dict_get fields "_links" = None ->
   _convert_object_to_document self (JDict fields) parent = Raise (KeyError "_links")
   /\ slim_document self (JDict fields) payload = Raise (KeyError "_links"))
  /\ (forall links webui client content,
        dict_get fields "_links" = Some links ->
        getitem links "webui" = Ok (JStr webui) ->
        dict_get fields "type" = Some (JStr "attachment") ->
        _confluence_client self = Some client ->
        attachment_to_content client (JDict fields) parent = Ok (Some content) ->
        dict_get fields "space" = None ->
        _convert_object_to_document self (JDict fields) parent = Raise (KeyError "space")).
Proof.
  split.
  - intro H. unfold _convert_object_to_document, slim_document, getitem. rewrite H.
    split; reflexivity.
  - intros links webui client content Hl Hw Ht Hc Hcontent Hs.
    assert (getitem (JDict fields) "_links" = Ok links) as Gl
      by (unfold getitem; now rewrite Hl).
    assert (getitem (JDict fields) "type" = Ok (JStr "attachment")) as Gt
      by (unfold getitem; now rewrite Ht).
    assert (getitem (JDict fields) "space" = Raise (KeyError "space")) as Gs
      by (unfold getitem; now rewrite Hs).
    unfold _convert_object_to_document, confluence_client.
    rewrite Gl, Gs, Hc. cbn [bind]. rewrite Hw. cbn [bind as_str]. rewrite !Gt.
    cbn [bind eq_str]. change (String.eqb "attachment" "page") with false.
    change (String.eqb "attachment" "attachment") with true. cbn iota.
    rewrite Hcontent. reflexivity.
Qed.

(** Defaults of the conversion: without a title the document is called
    "Untitled Document", without a version block it has no timestamp and no
    owner, and without a metadata block its only metadata is the space. *)
Theorem converted_document_defaults (self : ConfluenceConnector)
    (fields : list (string * json)) (parent : option string) (d : Document.t) :
  _convert_object_to_document self (JDict fields) parent = Ok (Some d) ->
  (dict_get fields "title" = None ->
   Document.semantic_identifier d = JStr "Untitled Document")
  /\ (dict_get fields "version" = None ->
      Document.doc_updated_at d = None /\ Document.primary_owners d = None)
  /\ (dict_get fields "metadata" = None ->
      exists name, Document.metadata d = [("Wiki Space Name"%string, name)]).
Proof.
  unfold _convert_object_to_document. intro H.
  bind_ok H links El. bind_ok H webui Ew. bind_ok H w Es.
  bind_ok H type Et. bind_ok H object_text Eo.
  destruct object_text as [object_text|]; [|discriminate H].
  bind_ok H space Esp. bind_ok H name En. bind_ok H md Emd. bind_ok H labels Elb.
  bind_ok H results Er. bind_ok H label_dicts Eld. bind_ok H page_labels Epl.
  bind_ok H version Ev. bind_ok H when Ewh. bind_ok H last_modified Elm.
  bind_ok H by_ Eby. bind_ok H email Eem. bind_ok H title Eti.
  inversion H. subst d. clear H. cbn. split; [|split].
  - intro Hn. unfold get_default in Eti. rewrite Hn in Eti. inversion Eti. reflexivity.
  - intro Hn. unfold get_default in Ev. rewrite Hn in Ev. inversion Ev. subst version.
    cbn in Ewh. inversion Ewh. subst when. cbn in Elm. inversion Elm. subst last_modified.
    cbn in Eby. inversion Eby. subst by_. cbn in Eem. inversion Eem. subst email.
    split; reflexivity.
  - intro Hn. unfold get_default in Emd. rewrite Hn in Emd. inversion Emd. subst md.
    cbn in Elb. inversion Elb. subst labels. cbn in Er. inversion Er. subst results.
    cbn in Eld. inversion Eld. subst label_dicts. cbn in Epl. inversion Epl.
    now exists name.
Qed.


End FurtherProperties.

(* ================================================================= *)
(** ** A single page that overflows a slice *)

Section SinglePage.
Context {collaborators : Collaborators}.

(** The run over a single page whose records overflow one slice. *)
Lemma slim_single_page_run (self : ConfluenceConnector) (client : OnyxConfluence)
    (start end_ : option Z) (callback : option IndexingHeartbeatInterface)
    (page : json) (l : list SlimDocument.t) :
  _confluence_client self = Some client ->
  slim_pages self client = {| items := [page]; failure := None |} ->
  slim_page_records self [] page = Ok l ->
  (_SLIM_DOC_BATCH_SIZE < List.length l)%nat ->
  retrieve_all_slim_documents self start end_ callback
  = match callback with
    | None =>
        ([Yield (firstn _SLIM_DOC_BATCH_SIZE l); Yield (skipn _SLIM_DOC_BATCH_SIZE l)],
         Ok tt)
    | Some should_stop =>
        if should_stop O
        then ([Yield (firstn _SLIM_DOC_BATCH_SIZE l); ShouldStop true], Raise stop_signal)
        else ([Yield (firstn _SLIM_DOC_BATCH_SIZE l); ShouldStop false;
               Progress "retrieve_all_slim_documents" 1;
               Yield (skipn _SLIM_DOC_BATCH_SIZE l)], Ok tt)
    end.
Proof.
  intros Hc Hp Hl Hlen.
  unfold retrieve_all_slim_documents, confluence_client.
  rewrite Hc, gen_bind_lift. fold (slim_pages self client). rewrite Hp.
  unfold gen_for. cbn [items failure gen_for_each]. unfold slim_page.
  rewrite Hl, gen_bind_lift.
  apply Nat.ltb_lt in Hlen. rewrite Hlen.
  unfold yield, heartbeat.
  destruct callback as [should_stop|]; [destruct (should_stop O)|]; reflexivity.
Qed.

Lemma for_each_map_append {A : Type} (g : A -> json) (h : A -> SlimDocument.t)
    (body : list SlimDocument.t -> json -> result (list SlimDocument.t)) (xs : list A) :
  (forall l x, body l (g x) = Ok (l ++ [h x])) ->
  forall l, for_each (map g xs) body l = Ok (l ++ map h xs).
Proof.
  intro Hbody. induction xs as [|x xs IH]; intro l; cbn [map for_each].
  - now rewrite app_nil_r.
  - rewrite Hbody. cbn [bind]. rewrite IH, <- app_assoc. reflexivity.
Qed.

End SinglePage.

(* ================================================================= *)
(** ** Worked runs *)

Example demo_connector_init (batch_size : Z) (client : OnyxConfluence) :
  test_connector batch_size client = Ok (demo_connector batch_size client).
Proof. reflexivity. Qed.

Example demo_full_fetch :
  map (map Document.id) (batches (fst (load_from_state (demo_connector 2 demo_client))))
  = [["https://wiki.example/page/1"; "https://wiki.example/page/2"];
     ["https://wiki.example/page/3"; "https://wiki.example/attachment/7"];
     ["https://wiki.example/attachment/8"]]%string
  /\ snd (load_from_state (demo_connector 2 demo_client)) = Ok tt.
Proof. split; vm_compute; reflexivity. Qed.

Lemma base_query_priority_witness :
  exists self,
    __init__ "https://wiki.example/" false "my space" "" false (Some ""%string) 10 false [] 0
    = Ok self
    /\ forall q, page_filter "my space" "" false (Some ""%string) q
                 <-> q = base_cql_page_query self.
Proof.
  eexists. split; [reflexivity|].
  apply (base_query_priority "https://wiki.example/" false "my space" "" false
           (Some ""%string) 10 false [] 0).
  reflexivity.
Defined.

Example base_query_space :
  (self <- __init__ "https://wiki.example/" false "my space" "" false None 10 false [] 0 ;;
   Ok (base_cql_page_query self))
  = Ok "type=page and space='my%20space'"%string.
Proof. reflexivity. Qed.

Example base_query_recursive :
  (self <- __init__ "https://wiki.example/" false "ENG" "123" true None 10 false [] 0 ;;
   Ok (base_cql_page_query self))
  = Ok "type=page and (ancestor='123' or id='123')"%string.
Proof. reflexivity. Qed.

Lemma full_fetch_batch_sizes_witness :
  Forall (fun b => Z.of_nat (List.length b) <= 2)
         (batches (fst (poll_source (demo_connector 2 demo_client) None None)))
  /\ Forall (fun b => Z.of_nat (List.length b) = 2)
            (removelast (batches (fst (poll_source (demo_connector 2 demo_client) None None)))).
Proof.
  apply (full_fetch_batch_sizes (demo_connector 2 demo_client) None None).
  - simpl. lia.
  - right. reflexivity.
Defined.

Lemma pages_before_attachments_witness :
  exists rest,
    emitted (fst (_fetch_document_batches (demo_connector 2 demo_client) None None)) ++ rest
    = page_documents (demo_connector 2 demo_client)
        (items (paginated_cql_retrieval demo_client "type=page"
                  (join "," _PAGE_EXPANSION_FIELDS) (Some 2)))
      ++ attachment_documents (demo_connector 2 demo_client) demo_client
           (page_ids (items (paginated_cql_retrieval demo_client "type=page"
                               (join "," _PAGE_EXPANSION_FIELDS) (Some 2))))
    /\ (snd (_fetch_document_batches (demo_connector 2 demo_client) None None) = Ok tt ->
        rest = []).
Proof.
  apply (pages_before_attachments (demo_connector 2 demo_client) demo_client None None
           "type=page"); reflexivity.
Defined.

(** C4. A probe answered with HTTP 401, or with HTTP 403, raises the
    generic unexpected error with no status: the response of an HTTP error
    is false as a condition, so its status code is never read. *)
Theorem validate_http_401_is_unexpected :
  validate_connector_settings (demo_connector 2 unauthorized_client)
  = Raise (UnexpectedError (UnexpectedHTTP None))
  /\ validate_connector_settings (demo_connector 2 forbidden_client)
     = Raise (UnexpectedError (UnexpectedHTTP None)).
Proof. split; reflexivity. Qed.

(** C6, as stated, fails: with both bounds given as epoch second 0 the
    query has no time clause at all, and is the query of an unbounded load. *)
Lemma epoch_zero_bound_has_no_clause :
  _construct_page_query (demo_connector 2 demo_client) (Some 0) (Some 0)
  = Ok "type=page"%string
  /\ _construct_page_query (demo_connector 2 demo_client) (Some 0) (Some 0)
     = _construct_page_query (demo_connector 2 demo_client) None None.
Proof. split; reflexivity. Qed.

Example poll_with_bounds :
  _construct_page_query (demo_connector 2 demo_client) (Some 60) (Some 1700000000)
  = Ok ("type=page and lastmodified >= '1970-01-01 00:01'"
        +++ " and lastmodified <= '2023-11-14 22:13'").
Proof. reflexivity. Qed.



Lemma crowded_page_records :
  slim_page_records (demo_connector 2 crowded_client) [] crowded_page = Ok crowded_records.
Proof.
  unfold slim_page_records, for_stream.
  change (page_perm_sync_data crowded_page)
    with (Ok (JDict [("restrictions"%string, JDict []); ("space_key"%string, JStr "A");
                     ("ancestors"%string, JList [])], JNone, JStr "A")).
  cbn [bind].
  change (slim_document (demo_connector 2 crowded_client) crowded_page _)
    with (Ok {| SlimDocument.id := "https://wiki.example/page/1"%string;
                SlimDocument.perm_sync_data :=
                  JDict [("restrictions"%string, JDict []); ("space_key"%string, JStr "A");
                         ("ancestors"%string, JList [])] |}).
  cbn [bind].
  change (getitem crowded_page "id") with (Ok (JStr "1")). cbn [bind as_str].
  change (confluence_client (demo_connector 2 crowded_client)) with (Ok crowded_client).
  cbn [bind].
  match goal with
  | |- context [cql_paginate_all_expansions crowded_client ?q ?e ?lim] =>
      change (cql_paginate_all_expansions crowded_client q e lim)
        with (finished (map crowded_attachment (seq 1 (2 * _SLIM_DOC_BATCH_SIZE))))
  end.
  cbn [items failure finished].
  rewrite (for_each_map_append crowded_attachment crowded_attachment_slim).
  - reflexivity.
  - intros l n. reflexivity.
Qed.

Lemma crowded_records_length :
  List.length crowded_records = S (2 * _SLIM_DOC_BATCH_SIZE).
Proof.
  unfold crowded_records. cbn [List.length]. now rewrite length_map, length_seq.
Qed.

Lemma crowded_overflows : (_SLIM_DOC_BATCH_SIZE < List.length crowded_records)%nat.
Proof. rewrite crowded_records_length. generalize _SLIM_DOC_BATCH_SIZE. intro n. lia. Qed.

Lemma crowded_slices :
  List.length (firstn _SLIM_DOC_BATCH_SIZE crowded_records) = _SLIM_DOC_BATCH_SIZE
  /\ List.length (skipn _SLIM_DOC_BATCH_SIZE crowded_records) = S _SLIM_DOC_BATCH_SIZE.
Proof.
  rewrite length_firstn, length_skipn, crowded_records_length.
  generalize _SLIM_DOC_BATCH_SIZE. intro n. lia.
Qed.

(** C7. After one page with ten thousand attachments the run hands out
    a full slice of 5000 and then, as its last batch, the 5001 records
    that are left. *)
Theorem slim_last_batch_oversized :
  let run := retrieve_all_slim_documents (demo_connector 2 crowded_client) None None None in
  snd run = Ok tt
  /\ map (@List.length SlimDocument.t) (batches (fst run))
     = [_SLIM_DOC_BATCH_SIZE; S _SLIM_DOC_BATCH_SIZE].
Proof.
  intro run. subst run.
  rewrite (slim_single_page_run (demo_connector 2 crowded_client) crowded_client None None
             None crowded_page crowded_records eq_refl eq_refl crowded_page_records
             crowded_overflows).
  split; [reflexivity|]. cbn [fst batches map].
  destruct crowded_slices as [-> ->]. reflexivity.
Qed.

(** C8, as stated, fails: three pages are processed with a heartbeat
    attached, and [should_stop] is never called. *)
Lemma stop_check_not_per_page :
  let run :=
    retrieve_all_slim_documents (demo_connector 2 demo_client) None None (Some never_stop) in
  snd run = Ok tt
  /\ List.length (items (slim_pages (demo_connector 2 demo_client) demo_client)) = 3%nat
  /\ stop_checks (fst run) = 0%nat
  /\ stop_checks (fst run)
     <> List.length (items (slim_pages (demo_connector 2 demo_client) demo_client)).
Proof. repeat split; try (vm_compute; reflexivity). vm_compute. discriminate. Qed.

Lemma stop_check_after_each_slice_witness :
  let slim :=
    retrieve_all_slim_documents (demo_connector 2 demo_client) None None (Some never_stop) in
  (stop_checks (fst slim) + match snd slim with Ok _ => 1 | Raise _ => 0 end
   = List.length (batches (fst slim)))%nat
  /\ stop_checks (fst (_fetch_document_batches (demo_connector 2 demo_client) None None))
     = 0%nat.
Proof.
  destruct (stop_check_after_each_slice (demo_connector 2 demo_client) None None never_stop)
    as (_ & Hcount & _ & Hfull).
  split; [exact Hcount | exact Hfull].
Defined.

(** A heartbeat that asks to stop ends the run right after the first
    full slice. *)
Example stop_after_first_slice :
  let run :=
    retrieve_all_slim_documents (demo_connector 2 crowded_client) None None
      (Some always_stop) in
  snd run = Raise stop_signal
  /\ map (@List.length SlimDocument.t) (batches (fst run)) = [_SLIM_DOC_BATCH_SIZE]
  /\ stop_checks (fst run) = 1%nat.
Proof.
  intro run. subst run.
  rewrite (slim_single_page_run (demo_connector 2 crowded_client) crowded_client None None
             (Some always_stop) crowded_page crowded_records eq_refl eq_refl
             crowded_page_records crowded_overflows).
  cbn [always_stop fst snd batches map]. split; [reflexivity|]. split; [|reflexivity].
  destruct crowded_slices as [-> _]. reflexivity.
Qed.

Lemma slim_last_batch_unconditional_witness :
  snd (retrieve_all_slim_documents (demo_connector 2 demo_client) None None (Some never_stop))
  = Ok tt
  /\ retrieve_all_slim_documents
       (demo_connector 2 (test_client [] (fun _ => []) (Ok JNone))) None None None
     = ([Yield []], Ok tt).
Proof.
  split.
  - apply (slim_last_batch_unconditional (demo_connector 2 demo_client) (Some never_stop)
             demo_client None None eq_refl).
    + reflexivity.
    + intros page [<-|[<-|[<-|[]]]]; eexists; vm_compute; reflexivity.
    + intros f H n. inversion H. reflexivity.
  - apply (slim_last_batch_unconditional
             (demo_connector 2 (test_client [] (fun _ => []) (Ok JNone))) None
             (test_client [] (fun _ => []) (Ok JNone)) None None eq_refl).
    reflexivity.
Defined.

(* ================================================================= *)
(** ** Worked runs of the further properties *)

Lemma wiki_base_without_trailing_slash_witness :
  exists self,
    __init__ "https://wiki.example//" false "" "" false None 10 false [] 0 = Ok self
    /\ (exists n, "https://wiki.example//"%string = wiki_base self +++ replicate n "/")
    /\ forall s, wiki_base self <> s +++ "/".
Proof.
  eexists. split; [reflexivity|].
  apply (wiki_base_without_trailing_slash "https://wiki.example//" false "" "" false None
           10 false [] 0).
  reflexivity.
Defined.

Lemma space_clause_is_escaped_witness :
  exists self escaped,
    __init__ "https://wiki.example" false "it's mine" "" false None 10 false [] 0 = Ok self
    /\ base_cql_page_query self = "type=page and space='" +++ escaped +++ "'"
    /\ Forall (fun c => c <> "'"%char /\ c <> " "%char) (list_ascii_of_string escaped).
Proof.
  eexists.
  destruct (space_clause_is_escaped "https://wiki.example" false "it's mine" false 10 false
              [] 0 _ eq_refl) as (escaped & Hq & Hsafe & _).
  - discriminate.
  - exists escaped. split; [reflexivity|]. split; [exact Hq | exact Hsafe].
Defined.

Lemma fresh_connector_needs_credentials_witness :
  exists self,
    __init__ "https://wiki.example" false "ENG" "" false None 10 false [] 0 = Ok self
    /\ load_from_state self = ([], Raise (ConnectorMissingCredentialError "Confluence")).
Proof.
  eexists. split; [reflexivity|].
  apply (fresh_connector_needs_credentials "https://wiki.example" false "ENG" "" false None
           10 false [] 0 _ eq_refl).
Defined.

Lemma full_fetch_no_empty_batch_witness :
  Forall (fun b => b <> [])
         (batches (fst (_fetch_document_batches (demo_connector 2 demo_client) None None))).
Proof.
  apply (full_fetch_no_empty_batch (demo_connector 2 demo_client) None None).
  simpl. lia.
Defined.

Lemma full_fetch_flushes_each_record_witness :
  Forall (fun b => (List.length b <= 1)%nat)
         (batches (fst (_fetch_document_batches (demo_connector 0 demo_client) None None))).
Proof.
  apply (full_fetch_flushes_each_record (demo_connector 0 demo_client) None None).
  simpl. lia.
Defined.

Lemma converted_document_shape_witness :
  exists d,
    _convert_object_to_document (demo_connector 2 demo_client) demo_page None = Ok (Some d)
    /\ Document.id d = "https://wiki.example/page/1"%string
    /\ exists text,
         Document.sections d = [{| Document.link := Document.id d; Document.text := text |}].
Proof.
  eexists. split; [vm_compute; reflexivity|].
  destruct (converted_document_shape (demo_connector 2 demo_client) demo_page None _ eq_refl)
    as (links & webui & type & space & name & text & rest & _ & _ & _ & _ & _ & _ & _ & Hs & _).
  split; [reflexivity|]. exists text. exact Hs.
Defined.

Lemma unsupported_record_dropped_witness :
  _convert_object_to_document (demo_connector 2 demo_client) (comment_record "hello") None
  = Ok None.
Proof.
  apply (unsupported_record_dropped (demo_connector 2 demo_client) (comment_record "hello")
           None (JDict [("webui"%string, JStr "/comment/1")]) (JStr "comment") "/comment/1");
    try reflexivity.
  left. reflexivity.
Defined.

Lemma comment_string_in_order_witness :
  _get_comment_string_for_page_id (demo_connector 2 commented_client) "1"
  = Ok (nl +++ "Comment:" +++ nl +++ "text" +++ nl +++ "Comment:" +++ nl +++ "text").
Proof.
  apply (comment_string_in_order (demo_connector 2 commented_client) commented_client "1"
           ["text"; "text"]%string eq_refl eq_refl).
  repeat constructor.
Defined.

Lemma slim_slices_are_full_witness :
  Forall (fun b => List.length b = _SLIM_DOC_BATCH_SIZE)
         (removelast
            (batches (fst (retrieve_all_slim_documents (demo_connector 2 demo_client)
                             None None None)))).
Proof.
  apply (slim_slices_are_full (demo_connector 2 demo_client) None None None).
Defined.

Lemma validate_succeeds_iff_witness :
  validate_connector_settings (demo_connector 2 demo_client) = Ok tt.
Proof.
  apply (validate_succeeds_iff (demo_connector 2 demo_client)).
  exists demo_client, (JDict [("results"%string, JList [JDict []])]), (JList [JDict []]).
  repeat split.
Defined.

Lemma bounds_within_a_minute_witness :
  _construct_page_query (demo_connector 2 demo_client) (Some 1700000000) None
  = _construct_page_query (demo_connector 2 demo_client) (Some 1700000039) None.
Proof.
  apply (bounds_within_a_minute (demo_connector 2 demo_client) 1700000000 1700000039 None);
    [simpl; lia | lia | lia | reflexivity].
Defined.

Lemma page_payload_error_witness :
  page_perm_sync_data (JDict [("space"%string, JNone)]) = Raise AttributeError
  /\ AttributeError = AttributeError.
Proof.
  split; [reflexivity|].
  apply (page_payload_error (JDict [("space"%string, JNone)]) AttributeError eq_refl).
Defined.

Lemma full_fetch_returns_witness :
  snd (_fetch_document_batches (demo_connector 2 demo_client) None None) = Ok tt.
Proof.
  apply (full_fetch_returns (demo_connector 2 demo_client) demo_client None None "type=page"
           eq_refl eq_refl eq_refl).
  - intros page [<-|[<-|[<-|[]]]]; (split; [eexists; reflexivity|]);
      eexists; vm_compute; reflexivity.
  - intros i Hin. vm_compute in Hin. destruct Hin as [<-|[<-|[<-|[]]]];
      (split; [reflexivity|]).
    + intros a [<-|[<-|[]]]; eexists; vm_compute; reflexivity.
    + intros a [].
    + intros a [].
Defined.

Lemma slim_records_in_order_witness :
  emitted (fst (retrieve_all_slim_documents (demo_connector 2 demo_client) None None None))
  = flat_map (page_slim_documents (demo_connector 2 demo_client))
             (items (slim_pages (demo_connector 2 demo_client) demo_client)).
Proof.
  apply (slim_records_in_order (demo_connector 2 demo_client) demo_client None None None
           eq_refl eq_refl).
Defined.

Lemma init_succeeds_iff_witness :
  exists self,
    __init__ "https://wiki.example" false "" "" false None 10 false [] 19800 = Ok self
    /\ batch_size self = 10 /\ continue_on_failure self = false /\ is_cloud self = false
    /\ timezone self = 19800 /\ _confluence_client self = None.
Proof.
  apply (init_succeeds_iff "https://wiki.example" false "" "" false None 10 false [] 19800).
  lia.
Defined.

Lemma missing_required_keys_witness :
  _convert_object_to_document (demo_connector 2 demo_client)
    (JDict [("type"%string, JStr "page")]) None
  = Raise (KeyError "_links").
Proof.
  apply (missing_required_keys (demo_connector 2 demo_client)
           [("type"%string, JStr "page")] None JNone).
  reflexivity.
Defined.

Lemma converted_document_defaults_witness :
  exists d,
    _convert_object_to_document (demo_connector 2 demo_client) demo_page None = Ok (Some d)
    /\ Document.semantic_identifier d = JStr "Untitled Document"
    /\ Document.doc_updated_at d = None /\ Document.primary_owners d = None.
Proof.
  eexists. split; [vm_compute; reflexivity|].
  destruct (converted_document_defaults (demo_connector 2 demo_client)
              ([("id", JStr "1"); ("type", JStr "page");
                ("_links", JDict [("webui", JStr "/page/1")])]%string
               ++ in_space "A" "Space A")
              None _ eq_refl) as (Ht & Hv & _).
  split; [now apply Ht|]. now apply Hv.
Defined.

